(** * dcf-tool: statement extraction and FCFF valuation ([app.py])

    A shallow embedding of the extraction / valuation core of [app.py]:
    [parse_table], [latest_value], [build_dcf_inputs] and [run_dcf], and
    of the cached service around it, [fetch_screener] and
    [get_financials].

    - Python exceptions are the [Raise] branch of a small error monad, so
      that "never raises" is a statement about the model and not a
      by-product of its type.
    - A Python [dict] keeps insertion order and an assignment to a key that
      is already present keeps the key's position: it is an association list
      with in-place update ([dict_set]).
    - The BeautifulSoup document is a tree of tags and strings; [find] and
      [find_all] walk its descendants in document order.
    - Python's [float] is a class [PyFloat] of arithmetic, with two
      instances: exact rationals ([Q], the arithmetic the valuation formulas
      are written in) and IEEE binary64 (what CPython computes with). *)

From Stdlib Require Import Bool Arith ZArith QArith Qround Lqa Lia String Ascii List.
From Stdlib Require Import Floats.
Import ListNotations.

Set Implicit Arguments.
Set Warnings "-register-all,-inexact-float".

(** ** Exceptions *)

Inductive exn : Type :=
| IndexError
| KeyError
| ValueError
| ZeroDivisionError.

Inductive result (A : Type) : Type :=
| Ok (a : A)
| Raise (e : exn).

Arguments Ok {A} a.
Arguments Raise {A} e.

Definition bind {A B : Type} (m : result A) (k : A -> result B) : result B :=
  match m with
  | Ok a => k a
  | Raise e => Raise e
  end.

Notation "x <- m ;; k" := (bind m (fun x => k))
  (at level 61, m at next level, right associativity).

(** [try: m / except: handler] with a bare [except], which catches
    everything. *)
Definition try_except {A : Type} (m handler : result A) : result A :=
  match m with
  | Ok a => Ok a
  | Raise _ => handler
  end.

(** [for x in xs: s = body s x], stopping at the first exception. *)
Fixpoint for_each {A S : Type} (xs : list A) (body : S -> A -> result S) (s : S)
  : result S :=
  match xs with
  | [] => Ok s
  | x :: xs' => s' <- body s x ;; for_each xs' body s'
  end.

(** ** Sequences *)

(** [xs[i]] for [i >= 0]. *)
Definition getitem {A : Type} (xs : list A) (i : nat) : result A :=
  match nth_error xs i with
  | Some x => Ok x
  | None => Raise IndexError
  end.

(** [xs[-k]] for [k >= 1]. *)
Definition getitem_neg {A : Type} (xs : list A) (k : nat) : result A :=
  if (k <=? length xs)%nat then getitem xs (length xs - k)
  else Raise IndexError.

(** [list(enumerate(xs))], counting from [i]. *)
Fixpoint enumerate_from {A : Type} (i : nat) (xs : list A) : list (nat * A) :=
  match xs with
  | [] => []
  | x :: xs' => (i, x) :: enumerate_from (S i) xs'
  end.

Definition enumerate {A : Type} (xs : list A) : list (nat * A) :=
  enumerate_from 0 xs.

(** ** Strings

    A [string] is a sequence of code points below 256. *)

(** [str.isspace] on one character. *)
Definition isspace (c : ascii) : bool :=
  let n := nat_of_ascii c in
  ((9 <=? n) && (n <=? 13) || (28 <=? n) && (n <=? 32)
   || (n =? 133) || (n =? 160))%nat.

Fixpoint lstrip (s : string) : string :=
  match s with
  | EmptyString => EmptyString
  | String c s' => if isspace c then lstrip s' else s
  end.

Fixpoint rstrip (s : string) : string :=
  match s with
  | EmptyString => EmptyString
  | String c s' =>
      match rstrip s' with
      | EmptyString => if isspace c then EmptyString else String c EmptyString
      | r => String c r
      end
  end.

(** [s.strip()] *)
Definition strip (s : string) : string := lstrip (rstrip s).

(** [s.replace(c, "")] for a one-character [c]. *)
Fixpoint remove_char (c : ascii) (s : string) : string :=
  match s with
  | EmptyString => EmptyString
  | String a s' =>
      if Ascii.eqb a c then remove_char c s' else String a (remove_char c s')
  end.

(** ** Dictionaries *)

Definition dict (V : Type) : Type := list (string * V).

Section Dict.
Context {V : Type}.

Definition keys (d : dict V) : list string := map fst d.

Definition values (d : dict V) : list V := map snd d.

(** [d.get(k)] *)
Fixpoint dict_get (d : dict V) (k : string) : option V :=
  match d with
  | [] => None
  | (k', v) :: d' => if String.eqb k' k then Some v else dict_get d' k
  end.

(** [k in d] *)
Definition dict_contains (d : dict V) (k : string) : bool :=
  match dict_get d k with
  | Some _ => true
  | None => false
  end.

(** [d.get(k, dflt)] *)
Definition dict_get_default (d : dict V) (k : string) (dflt : V) : V :=
  match dict_get d k with
  | Some v => v
  | None => dflt
  end.

(** [d[k]] *)
Definition dict_getitem (d : dict V) (k : string) : result V :=
  match dict_get d k with
  | Some v => Ok v
  | None => Raise KeyError
  end.

(** [d[k] = v]: a key already present keeps its position, a new key goes
    last. *)
Fixpoint dict_set (d : dict V) (k : string) (v : V) : dict V :=
  match d with
  | [] => [(k, v)]
  | (k', v') :: d' =>
      if String.eqb k' k then (k', v) :: d' else (k', v') :: dict_set d' k v
  end.

(** [dict(pairs)]: the pairs are assigned in order into an empty dict. *)
Definition dict_of_pairs (pairs : list (string * V)) : dict V :=
  fold_left (fun d kv => dict_set d (fst kv) (snd kv)) pairs [].

(** Assigning a list of pairs in order into [d]: [dict_of_pairs] from any
    start. *)
Definition dict_update (d : dict V) (pairs : list (string * V)) : dict V :=
  fold_left (fun d kv => dict_set d (fst kv) (snd kv)) pairs d.

End Dict.

(** ** The parsed document (BeautifulSoup)

    A document is a tree of tags and strings.  Nodes that neither [find],
    [find_all] nor [.text] see (comments, doctype) are left out. *)

Inductive node : Type :=
| Text (s : string)
| Elem (name : string) (attrs : list (string * string)) (children : list node).

(** The descendants of a node in document order, the node itself excluded. *)
Fixpoint descendants (n : node) : list node :=
  match n with
  | Text _ => []
  | Elem _ _ cs => flat_map (fun c => c :: descendants c) cs
  end.

(** [n.text]: the strings below [n], concatenated in document order. *)
Fixpoint text (n : node) : string :=
  match n with
  | Text s => s
  | Elem _ _ cs => String.concat "" (map text cs)
  end.

(** A tag whose name is one of [names] and that carries every attribute of
    [attrs] with the given value. *)
Definition matches (names : list string) (attrs : list (string * string))
  (n : node) : bool :=
  match n with
  | Text _ => false
  | Elem name nattrs _ =>
      existsb (String.eqb name) names
      && forallb (fun kv =>
           match dict_get nattrs (fst kv) with
           | Some v => String.eqb v (snd kv)
           | None => false
           end) attrs
  end.

(** [n.find_all(names, attrs)] *)
Definition find_all (names : list string) (attrs : list (string * string))
  (n : node) : list node :=
  filter (matches names attrs) (descendants n).

(** [n.find(name, attrs)]: the first match in document order, or [None]. *)
Definition find (name : string) (attrs : list (string * string)) (n : node)
  : option node :=
  hd_error (find_all [name] attrs n).

(** ** Numbers

    The arithmetic [app.py] uses on Python numbers.  [f_of_Q] reads a
    numeric literal of the source ([0], [1], [0.25]); [f_div] is true
    division by a nonzero divisor (Python raises [ZeroDivisionError] on a
    zero one, see [py_div]); [f_is_zero x] is [x == 0], so that the truth
    value of [x] is its negation; [f_round x n] is [round(x, n)];
    [f_of_string] is the builtin [float] on a [str], [None] standing for
    its [ValueError]. *)

Class PyFloat (F : Type) : Type := {
  f_of_Q : Q -> F;
  f_add : F -> F -> F;
  f_sub : F -> F -> F;
  f_mul : F -> F -> F;
  f_div : F -> F -> F;
  f_is_zero : F -> bool;
  f_gt : F -> F -> bool;
  f_round : F -> nat -> F;
  f_of_string : string -> option F;
  f_gt_zero_nonzero :
    forall x : F, f_gt x (f_of_Q 0) = true -> f_is_zero x = false
}.

Declare Scope py_scope.
Delimit Scope py_scope with py.
Infix "+" := f_add : py_scope.
Infix "-" := f_sub : py_scope.
Infix "*" := f_mul : py_scope.

Section Numbers.
Context {F : Type} `{PyFloat F}.

(** [x / y] *)
Definition py_div (x y : F) : result F :=
  if f_is_zero y then Raise ZeroDivisionError else Ok (f_div x y).

(** [float(s)] *)
Definition py_float (s : string) : result F :=
  match f_of_string s with
  | Some x => Ok x
  | None => Raise ValueError
  end.

(** [bool(x)] *)
Definition truthy (x : F) : bool := negb (f_is_zero x).

(** [x ** n] for an [int] exponent [n >= 0], as the product of [n]
    factors.  This is exact in exact arithmetic.  In binary64 each product
    is rounded: C's [pow], which CPython calls, gives the same for
    [n <= 2] and may differ in the last places beyond; and where [pow]
    overflows CPython raises [OverflowError], while the product here is an
    infinity. *)
Fixpoint py_pow (x : F) (n : nat) : F :=
  match n with
  | O => f_of_Q 1
  | S n' => f_mul x (py_pow x n')
  end.

End Numbers.

(** ** Statement extractor: [parse_table] and [latest_value] *)

Section Extractor.
Context {F : Type} `{PyFloat F}.

(** [LineItemSeries]: period label to value. *)
Definition series : Type := dict F.

(** [StatementTable]: line-item label to series. *)
Definition statement_table : Type := dict series.

(** Body of the loop over [cells[1:]]:
    [v = c.text.strip().replace(",", "")], then [float(v)] is appended, or
    [0.0] when [float] raises. *)
Definition parse_cell (values : list F) (c : node) : result (list F) :=
  let v := remove_char "," (strip (text c)) in
  try_except
    (x <- py_float v ;; Ok (values ++ [x]))
    (Ok (values ++ [f_of_Q 0])).

(** Body of the loop over [rows[1:]]. *)
Definition parse_row (headers : list string) (data : statement_table)
  (row : node) : result statement_table :=
  let cells := find_all ["td"; "th"]%string [] row in
  if (length cells <? 2)%nat then Ok data
  else
    c0 <- getitem cells 0 ;;
    let key := strip (text c0) in
    values <- for_each (skipn 1 cells) parse_cell [] ;;
    Ok (dict_set data key (dict_of_pairs (combine headers values))).

Definition parse_table (soup : node) (section_id : string)
  : result statement_table :=
  match find "section" [("id", section_id)]%string soup with
  | None => Ok []
  | Some section =>
      match find "table" [] section with
      | None => Ok []
      | Some table =>
          let rows := find_all ["tr"%string] [] table in
          if (length rows <? 2)%nat then Ok []
          else
            row0 <- getitem rows 0 ;;
            let header_cells := find_all ["th"%string] [] row0 in
            if (length header_cells <? 2)%nat then Ok []
            else
              let headers :=
                skipn 1 (map (fun th => strip (text th)) header_cells) in
              for_each (skipn 1 rows) (parse_row headers) []
      end
  end.

Definition latest_value (row : series) : result F :=
  match row with
  | [] => Ok (f_of_Q 0)
  | _ =>
      if dict_contains row "TTM" then dict_getitem row "TTM"
      else getitem_neg (values row) 1
  end.

End Extractor.

(** ** Input derivation: [build_dcf_inputs] *)

(** The dict [build_dcf_inputs] returns ([DCFInputs]). *)
Record dcf_inputs (F : Type) : Type := {
  revenue : F;
  ebit_margin : F;
  tax_rate : F;
  capex_pct : F;
  nwc_pct : F;
  net_debt : F
}.

(** The local variables of [build_dcf_inputs] when it reaches its
    [return]. *)
Record inputs_locals (F : Type) : Type := {
  l_revenue : F;
  l_ebit : F;
  l_depreciation : F;
  l_pbt : F;
  l_pat : F;
  l_tax_paid : F;
  l_tax_rate : F;
  l_capex : F;
  l_capex_pct : F;
  l_nwc_pct : F;
  l_net_debt : F;
  l_ebit_margin : F
}.

Section Inputs.
Context {F : Type} `{PyFloat F}.
Local Open Scope py_scope.
Local Open Scope string_scope.

(** Lines 95-137: the body of [build_dcf_inputs] up to its [return].  The
    parameter [cf] is not read. *)
Definition build_dcf_body (pl bs cf : @statement_table F)
  : result (inputs_locals F) :=
  revenue <- latest_value (dict_get_default pl "Sales +" []) ;;
  ebit <- latest_value (dict_get_default pl "Operating Profit" []) ;;
  depreciation <- latest_value (dict_get_default pl "Depreciation" []) ;;
  pbt <- latest_value (dict_get_default pl "Profit before tax" []) ;;
  pat <- latest_value (dict_get_default pl "Net Profit +" []) ;;
  let tax_paid := pbt - pat in
  tax_rate <-
    (if f_gt pbt (f_of_Q 0) then py_div tax_paid pbt else Ok (f_of_Q 0.25)) ;;
  let fa := dict_get_default bs "Fixed Assets +" [] in
  let years := keys fa in
  capex <-
    (if (2 <=? length years)%nat then
       y1 <- getitem_neg years 1 ;;
       a <- dict_getitem fa y1 ;;
       y2 <- getitem_neg years 2 ;;
       b <- dict_getitem fa y2 ;;
       Ok (a - b + depreciation)
     else Ok depreciation) ;;
  capex_pct <-
    (if truthy revenue then py_div capex revenue else Ok (f_of_Q 0)) ;;
  let oa := dict_get_default bs "Other Assets +" [] in
  let ol := dict_get_default bs "Other Liabilities +" [] in
  let oa_years := keys oa in
  let ol_years := keys ol in
  nwc_pct <-
    (if ((2 <=? length oa_years) && (2 <=? length ol_years))%nat then
       oy1 <- getitem_neg oa_years 1 ;;
       oa1 <- dict_getitem oa oy1 ;;
       oy2 <- getitem_neg oa_years 2 ;;
       oa2 <- dict_getitem oa oy2 ;;
       ly1 <- getitem_neg ol_years 1 ;;
       ol1 <- dict_getitem ol ly1 ;;
       ly2 <- getitem_neg ol_years 2 ;;
       ol2 <- dict_getitem ol ly2 ;;
       let delta_nwc := (oa1 - oa2) - (ol1 - ol2) in
       if truthy revenue then py_div delta_nwc revenue else Ok (f_of_Q 0)
     else Ok (f_of_Q 0)) ;;
  borrowings <- latest_value (dict_get_default bs "Borrowings +" []) ;;
  cash <- latest_value (dict_get_default bs "Investments" []) ;;
  let net_debt := borrowings - cash in
  ebit_margin <-
    (if truthy revenue then py_div ebit revenue else Ok (f_of_Q 0)) ;;
  Ok {| l_revenue := revenue; l_ebit := ebit; l_depreciation := depreciation;
        l_pbt := pbt; l_pat := pat; l_tax_paid := tax_paid;
        l_tax_rate := tax_rate; l_capex := capex; l_capex_pct := capex_pct;
        l_nwc_pct := nwc_pct; l_net_debt := net_debt;
        l_ebit_margin := ebit_margin |}.

(** Lines 139-146: the returned dict. *)
Definition build_dcf_inputs (pl bs cf : @statement_table F)
  : result (dcf_inputs F) :=
  l <- build_dcf_body pl bs cf ;;
  Ok {| revenue := l_revenue l;
        ebit_margin := f_round (l_ebit_margin l) 4;
        tax_rate := f_round (l_tax_rate l) 4;
        capex_pct := f_round (l_capex_pct l) 4;
        nwc_pct := f_round (l_nwc_pct l) 4;
        net_debt := l_net_debt l |}.

End Inputs.

(** ** Projection and discounting: [run_dcf] *)

(** The request body of [run_dcf]; every key the function reads is
    present. *)
Record payload (F : Type) : Type := {
  p_revenue : F;
  p_growth : list F;
  p_ebit_margin : F;
  p_tax_rate : F;
  p_capex_pct : F;
  p_nwc_pct : F;
  p_wacc : F;
  p_terminal_growth : F;
  p_net_debt : F;
  p_shares : F
}.

(** The dict [run_dcf] returns ([ProjectionResult]). *)
Record projection (F : Type) : Type := {
  enterprise_value : F;
  equity_value : F;
  fair_value_per_share : F
}.

(** The local variables of [run_dcf] when it reaches its [return]. *)
Record dcf_locals (F : Type) : Type := {
  d_fcffs : list F;
  d_tv : F;
  d_ev : F;
  d_equity : F;
  d_fair_value : F
}.

Section Projection.
Context {F : Type} `{PyFloat F}.
Local Open Scope py_scope.

(** Body of the loop over [growth]; the state is [(rev, fcffs)]. *)
Definition forecast_step (p : payload F) (st : F * list F) (g : F)
  : F * list F :=
  let rev := fst st * (f_of_Q 1 + g) in
  let ebit := rev * p_ebit_margin p in
  let nopat := ebit * (f_of_Q 1 - p_tax_rate p) in
  let capex := rev * p_capex_pct p in
  let nwc := rev * p_nwc_pct p in
  let fcff := nopat - capex - nwc in
  (rev, snd st ++ [fcff]).

(** Body of the loop over [enumerate(fcffs)]; the state is [ev]. *)
Definition discount_step (p : payload F) (ev : F) (i_f : nat * F) : result F :=
  d <- py_div (snd i_f) (py_pow (f_of_Q 1 + p_wacc p) (fst i_f + 1)) ;;
  Ok (ev + d).

(** Lines 198-230: the body of [run_dcf] up to its [return]. *)
Definition run_dcf_body (p : payload F) : result (dcf_locals F) :=
  let fcffs := snd (fold_left (forecast_step p) (p_growth p) (p_revenue p, [])) in
  last_fcff <- getitem_neg fcffs 1 ;;
  tv <- py_div (last_fcff * (f_of_Q 1 + p_terminal_growth p))
               (p_wacc p - p_terminal_growth p) ;;
  ev <- for_each (enumerate fcffs) (discount_step p) (f_of_Q 0) ;;
  d <- py_div tv (py_pow (f_of_Q 1 + p_wacc p) (length fcffs)) ;;
  let ev := ev + d in
  let equity := ev - p_net_debt p in
  fair_value <- py_div equity (p_shares p) ;;
  Ok {| d_fcffs := fcffs; d_tv := tv; d_ev := ev; d_equity := equity;
        d_fair_value := fair_value |}.

(** Lines 232-236: the returned dict. *)
Definition run_dcf (p : payload F) : result (projection F) :=
  l <- run_dcf_body p ;;
  Ok {| enterprise_value := f_round (d_ev l) 2;
        equity_value := f_round (d_equity l) 2;
        fair_value_per_share := f_round (d_fair_value l) 2 |}.

End Projection.

(** ** The financials service: [fetch_screener] and [get_financials]

    The module-level dict [financials_cache] is threaded through
    [get_financials] as a state; [time.time()] is the argument [now].  What
    the function reaches outside the program for is a parameter: the HTTP
    client ([requests.get], answering with a status and a body or failing),
    the HTML parser ([BeautifulSoup(html, "html.parser")], building the
    document or failing on markup it rejects) and the builtin
    [str.upper]. *)

(** The answer of [requests.get]. *)
Record http_response : Type := {
  status_code : nat;
  body : string
}.

(** Why a request to the service fails: an exception of the extraction
    code, the [HTTPError] of [raise_for_status], an exception of
    [requests.get] itself (no connection, timeout), or an exception of the
    [BeautifulSoup] constructor (the [AssertionError] of [html.parser] on
    a declaration it cannot read, [ParserRejectedMarkup]). *)
Inductive failure : Type :=
| CoreError (e : exn)
| HTTPError (status : nat)
| RequestException
| ParserError.

Inductive outcome (A : Type) : Type :=
| Done (a : A)
| Failed (f : failure).

Arguments Done {A} a.
Arguments Failed {A} f.

(** ["profit_loss"], ["balance_sheet"] and ["cash_flow"] of a ticker. *)
Record financials (F : Type) : Type := {
  profit_loss : dict (dict F);
  balance_sheet : dict (dict F);
  cash_flow : dict (dict F)
}.

(** A value of [financials_cache]. *)
Record cache_entry (F : Type) : Type := {
  c_timestamp : F;
  c_data : financials F
}.

(** The dict [get_financials] returns: [{"source": ..., **data}]. *)
Record financials_response (F : Type) : Type := {
  r_source : string;
  r_data : financials F
}.

(** [CACHE_TTL = 6 * 60 * 60] *)
Definition CACHE_TTL : Q := 6 * 60 * 60.

Section Service.
Context {F : Type} `{PyFloat F}.
Variable upper : string -> string.
Variable http_get : string -> outcome http_response.
Variable html_parser : string -> outcome node.
Local Open Scope string_scope.

(** [r.raise_for_status()]: a status from 400 to 599 is an [HTTPError]. *)
Definition raise_for_status (r : http_response) : outcome http_response :=
  if ((400 <=? status_code r) && (status_code r <? 600))%nat
  then Failed (HTTPError (status_code r))
  else Done r.

Definition fetch_screener (ticker : string) : outcome string :=
  let url := "https://www.screener.in/company/" ++ ticker ++ "/" in
  match http_get url with
  | Failed f => Failed f
  | Done r =>
      match raise_for_status r with
      | Failed f => Failed f
      | Done r => Done (body r)
      end
  end.

(** The cached entry [get_financials] answers from: the one of the ticker,
    when [now - cached["timestamp"] < CACHE_TTL]. *)
Definition cache_lookup (cache : dict (cache_entry F)) (ticker : string)
  (now : F) : option (cache_entry F) :=
  match dict_get cache ticker with
  | Some cached =>
      if f_gt (f_of_Q CACHE_TTL) (f_sub now (c_timestamp cached))
      then Some cached
      else None
  | None => None
  end.

(** The three extractions of lines 169-171. *)
Definition extract_financials (soup : node) : result (financials F) :=
  pl <- parse_table soup "profit-loss" ;;
  bs <- parse_table soup "balance-sheet" ;;
  cf <- parse_table soup "cash-flow" ;;
  Ok {| profit_loss := pl; balance_sheet := bs; cash_flow := cf |}.

(** [get_financials(ticker)] at time [now] on the cache [cache]: what the
    call returns or raises, and the cache it leaves. *)
Definition get_financials (ticker : string) (now : F)
  (cache : dict (cache_entry F))
  : outcome (financials_response F) * dict (cache_entry F) :=
  let ticker := upper ticker in
  match cache_lookup cache ticker now with
  | Some cached =>
      (Done {| r_source := "cache"; r_data := c_data cached |}, cache)
  | None =>
      match fetch_screener ticker with
      | Failed f => (Failed f, cache)
      | Done html =>
          match html_parser html with
          | Failed f => (Failed f, cache)
          | Done soup =>
              match extract_financials soup with
              | Raise e => (Failed (CoreError e), cache)
              | Ok data =>
                  (Done {| r_source := "live"; r_data := data |},
                   dict_set cache ticker
                     {| c_timestamp := now; c_data := data |})
              end
          end
      end
  end.

End Service.

(** ** The builtin [float] on strings

    [float(s)] skips the whitespace at both ends and reads
    [[sign] (floatnumber | "inf" | "infinity" | "nan")], the words in any
    letter case; a [digitpart] is digits with single underscores between
    them. *)

(** The whitespace [float] skips: the ASCII whitespace (tab to carriage
    return, and the space) and the two other spaces below 256, U+0085 and
    U+00A0, which [float] reads as spaces.  The separators U+001C to
    U+001F are whitespace for [str.strip] and not for [float], which
    raises [ValueError] on them. *)
Definition float_space (c : ascii) : bool :=
  let n := nat_of_ascii c in
  ((9 <=? n) && (n <=? 13) || (n =? 32) || (n =? 133) || (n =? 160))%nat.

Fixpoint skip_spaces (cs : list ascii) : list ascii :=
  match cs with
  | c :: cs' => if float_space c then skip_spaces cs' else cs
  | [] => []
  end.

Definition float_strip (cs : list ascii) : list ascii :=
  rev (skip_spaces (rev (skip_spaces cs))).

Inductive float_literal : Type :=
| LitFinite (neg : bool) (mantissa : N) (exp10 : Z)
| LitInf (neg : bool)
| LitNan.

Definition digit_value (c : ascii) : option N :=
  let n := N_of_ascii c in
  if ((48 <=? n) && (n <=? 57))%N then Some (n - 48)%N else None.

(** ASCII lower case. *)
Definition lower (c : ascii) : ascii :=
  let n := nat_of_ascii c in
  if ((65 <=? n) && (n <=? 90))%nat then ascii_of_nat (n + 32) else c.

(** The rest of a [digitpart] after its first digit: [acc] is the number
    read so far and [n] the count of its digits. *)
Fixpoint digits_tail (acc : N) (n : nat) (cs : list ascii)
  : N * nat * list ascii :=
  match cs with
  | [] => (acc, n, [])
  | c :: cs' =>
      match digit_value c with
      | Some d => digits_tail (10 * acc + d)%N (S n) cs'
      | None =>
          if Ascii.eqb c "_" then
            match cs' with
            | c2 :: cs'' =>
                match digit_value c2 with
                | Some d => digits_tail (10 * acc + d)%N (S n) cs''
                | None => (acc, n, cs)
                end
            | [] => (acc, n, cs)
            end
          else (acc, n, cs)
      end
  end.

Definition digitpart (acc : N) (cs : list ascii)
  : option (N * nat * list ascii) :=
  match cs with
  | c :: cs' =>
      match digit_value c with
      | Some d => Some (digits_tail (10 * acc + d)%N 1 cs')
      | None => None
      end
  | [] => None
  end.

Definition read_sign (cs : list ascii) : bool * list ascii :=
  match cs with
  | c :: cs' =>
      if Ascii.eqb c "-" then (true, cs')
      else if Ascii.eqb c "+" then (false, cs')
      else (false, cs)
  | [] => (false, [])
  end.

(** [exponent ::= ("e" | "E") [sign] digitpart], up to the end of the
    string; an absent exponent is [0]. *)
Definition read_exponent (cs : list ascii) : option Z :=
  match cs with
  | [] => Some 0%Z
  | c :: cs' =>
      if Ascii.eqb (lower c) "e" then
        let (neg, ds) := read_sign cs' in
        match digitpart 0 ds with
        | Some (e, _, []) => Some (if neg then (- Z.of_N e)%Z else Z.of_N e)
        | _ => None
        end
      else None
  end.

(** [floatnumber ::= ([digitpart] "." digitpart | digitpart ["."]) [exponent]] *)
Definition read_number (neg : bool) (cs : list ascii) : option float_literal :=
  let '(m1, n1, r1) :=
    match digitpart 0 cs with
    | Some x => x
    | None => (0%N, O, cs)
    end in
  let '(m2, n2, r2) :=
    match r1 with
    | c :: r =>
        if Ascii.eqb c "." then
          match digitpart m1 r with
          | Some x => x
          | None => (m1, O, r)
          end
        else (m1, O, r1)
    | [] => (m1, O, r1)
    end in
  if (n1 + n2 =? 0)%nat then None
  else
    match read_exponent r2 with
    | Some e => Some (LitFinite neg m2 (e - Z.of_nat n2))
    | None => None
    end.

Definition read_float (s : string) : option float_literal :=
  let (neg, cs) := read_sign (float_strip (list_ascii_of_string s)) in
  let word := string_of_list_ascii (map lower cs) in
  if (String.eqb word "inf" || String.eqb word "infinity")%string
  then Some (LitInf neg)
  else if String.eqb word "nan" then Some LitNan
  else read_number neg cs.

(** ** Exact arithmetic: rationals *)

(** The integer nearest to [q], ties going to the even one. *)
Definition round_half_even (q : Q) : Z :=
  let f := Qfloor q in
  match Qcompare (q - inject_Z f) (1 # 2) with
  | Lt => f
  | Gt => (f + 1)%Z
  | Eq => if Z.even f then f else (f + 1)%Z
  end.

(** [round(q, ndigits)], in lowest terms. *)
Definition Qround (q : Q) (ndigits : nat) : Q :=
  let scale := inject_Z (10 ^ Z.of_nat ndigits) in
  Qred (inject_Z (round_half_even (q * scale)) / scale).

Definition Qgtb (x y : Q) : bool := negb (Qle_bool x y).

(** The value of a literal; exact arithmetic has none for [inf] and
    [nan]. *)
Definition Q_of_literal (l : float_literal) : option Q :=
  match l with
  | LitFinite neg m e =>
      let a := inject_Z (Z.of_N m) in
      let v := if (0 <=? e)%Z then a * inject_Z (10 ^ e)
               else a / inject_Z (10 ^ (- e)) in
      Some (Qred (if neg then - v else v))
  | LitInf _ => None
  | LitNan => None
  end.

Definition Q_of_string (s : string) : option Q :=
  match read_float s with
  | Some l => Q_of_literal l
  | None => None
  end.

Lemma Qgtb_zero_nonzero (x : Q) : Qgtb x 0 = true -> Qeq_bool x 0 = false.
Proof.
  unfold Qgtb. intros Hgt.
  destruct (Qeq_bool x 0) eqn:E; [ | reflexivity ].
  apply Qeq_bool_iff in E.
  assert (Hle : Qle_bool x 0 = true) by (apply Qle_bool_iff; rewrite E; apply Qle_refl).
  rewrite Hle in Hgt. discriminate.
Qed.

#[export] Instance Q_PyFloat : PyFloat Q := {|
  f_of_Q := fun q => q;
  f_add := Qplus;
  f_sub := Qminus;
  f_mul := Qmult;
  f_div := Qdiv;
  f_is_zero := fun x => Qeq_bool x 0;
  f_gt := Qgtb;
  f_round := Qround;
  f_of_string := Q_of_string;
  f_gt_zero_nonzero := Qgtb_zero_nonzero
|}.

(** ** IEEE binary64 *)

(** The binary64 number nearest to [n / d] (ties to even), with sign
    [neg]. *)
Definition SF_of_ratio (neg : bool) (n d : positive) : spec_float :=
  SFdiv prec emax (S754_finite neg n 0) (S754_finite false d 0).

(** A literal of the source, correctly rounded. *)
Definition b64_of_Q (q : Q) : float :=
  match Qnum q with
  | Z0 => PrimFloat.zero
  | Zpos n => SF2Prim (SF_of_ratio false n (Qden q))
  | Zneg n => SF2Prim (SF_of_ratio true n (Qden q))
  end.

(** The exact value [m * 2^e]. *)
Definition Q_of_finite (m : positive) (e : Z) : Q :=
  if (0 <=? e)%Z then inject_Z (Zpos m * 2 ^ e)
  else Zpos m # Z.to_pos (2 ^ (- e)).

(** [round(x, ndigits)] on a float: the exact value of [x] is rounded to
    [ndigits] decimals, ties to even, and the decimal result is read back
    as the nearest float; infinities, [nan] and zeros are returned as they
    are. *)
Definition b64_round (x : float) (ndigits : nat) : float :=
  match Prim2SF x with
  | S754_finite s m e =>
      let q := Qround (Q_of_finite m e) ndigits in
      match Qnum q with
      | Zpos n => SF2Prim (SF_of_ratio s n (Qden q))
      | _ => SF2Prim (S754_zero s)
      end
  | _ => x
  end.

Definition b64_of_literal (l : float_literal) : float :=
  match l with
  | LitFinite neg m e =>
      match m with
      | N0 => SF2Prim (S754_zero neg)
      | Npos n =>
          if (0 <=? e)%Z then SF2Prim (SF_of_ratio neg (n * Z.to_pos (10 ^ e)) 1)
          else SF2Prim (SF_of_ratio neg n (Z.to_pos (10 ^ (- e))))
      end
  | LitInf neg => if neg then PrimFloat.neg_infinity else PrimFloat.infinity
  | LitNan => PrimFloat.nan
  end.

Definition b64_of_string (s : string) : option float :=
  option_map b64_of_literal (read_float s).

Definition b64_is_zero (x : float) : bool := PrimFloat.eqb x PrimFloat.zero.

Definition b64_gt (x y : float) : bool := PrimFloat.ltb y x.

Lemma b64_gt_zero_nonzero (x : float) :
  b64_gt x (b64_of_Q 0) = true -> b64_is_zero x = false.
Proof.
  unfold b64_gt, b64_is_zero. change (b64_of_Q 0) with PrimFloat.zero.
  rewrite ltb_spec, eqb_spec.
  change (Prim2SF PrimFloat.zero) with (S754_zero false).
  destruct (Prim2SF x) as [s | s | | s m e]; try destruct s; cbn; congruence.
Qed.

#[export] Instance b64_PyFloat : PyFloat float := {|
  f_of_Q := b64_of_Q;
  f_add := PrimFloat.add;
  f_sub := PrimFloat.sub;
  f_mul := PrimFloat.mul;
  f_div := PrimFloat.div;
  f_is_zero := b64_is_zero;
  f_gt := b64_gt;
  f_round := b64_round;
  f_of_string := b64_of_string;
  f_gt_zero_nonzero := b64_gt_zero_nonzero
|}.

(** The rational a binary64 number stands for, in lowest terms; an
    infinity and [nan] stand for none. *)
Definition b64_value (x : float) : option Q :=
  match Prim2SF x with
  | S754_zero _ => Some 0
  | S754_finite s m e =>
      Some (Qred (if s then - Q_of_finite m e else Q_of_finite m e))
  | _ => None
  end.

Fixpoint b64_values (xs : list float) : option (list Q) :=
  match xs with
  | [] => Some []
  | x :: xs' =>
      match b64_value x, b64_values xs' with
      | Some q, Some qs => Some (q :: qs)
      | _, _ => None
      end
  end.

(** The request body that a binary64 request body stands for. *)
Definition payload_value (p : payload float) : option (payload Q) :=
  match b64_value (p_revenue p), b64_values (p_growth p),
        b64_value (p_ebit_margin p), b64_value (p_tax_rate p),
        b64_value (p_capex_pct p), b64_value (p_nwc_pct p),
        b64_value (p_wacc p), b64_value (p_terminal_growth p),
        b64_value (p_net_debt p), b64_value (p_shares p) with
  | Some rev, Some gs, Some em, Some tax, Some cp, Some np, Some w, Some tg,
    Some nd, Some sh =>
      Some {| p_revenue := rev; p_growth := gs; p_ebit_margin := em;
              p_tax_rate := tax; p_capex_pct := cp; p_nwc_pct := np;
              p_wacc := w; p_terminal_growth := tg; p_net_debt := nd;
              p_shares := sh |}
  | _, _, _, _, _, _, _, _, _, _ => None
  end.


(** ** What the extractor computes

    The result of [parse_table] said without loops, exceptions or
    assignments: the value of a cell, the entry of a row, the entries of a
    table.  The loops of [parse_table] are proved to compute them. *)

Section ExtractorContract.
Context {F : Type} `{PyFloat F}.
Local Open Scope string_scope.
Local Open Scope list_scope.

(** The value a data cell contributes, as the extractor's contract words
    it: commas are removed from the trimmed cell text, the text is read as
    a number, and a text that is no number counts as [0.0]. *)
Definition cell_value (c : node) : F :=
  match f_of_string (remove_char "," (strip (text c))) with
  | Some x => x
  | None => f_of_Q 0
  end.

(** What a row adds to the table: nothing when it has fewer than two
    cells, else its label with the series of its value cells. *)
Definition row_entry (headers : list string) (row : node)
  : list (string * @series F) :=
  match find_all ["td"; "th"] [] row with
  | c0 :: c1 :: cs =>
      [(strip (text c0),
        dict_of_pairs (combine headers (map cell_value (c1 :: cs))))]
  | _ => []
  end.

(** The rows of the first table of the section, none when the section or
    the table is absent. *)
Definition table_rows (soup : node) (section_id : string) : list node :=
  match find "section" [("id", section_id)] soup with
  | Some section =>
      match find "table" [] section with
      | Some table => find_all ["tr"] [] table
      | None => []
      end
  | None => []
  end.

Definition header_cells (rows : list node) : list node :=
  match rows with
  | row0 :: _ => find_all ["th"] [] row0
  | [] => []
  end.

(** The period labels: the header cells after the first. *)
Definition period_labels (rows : list node) : list string :=
  skipn 1 (map (fun th => strip (text th)) (header_cells rows)).

(** The labelled series of the data rows, in row order. *)
Definition table_entries (soup : node) (section_id : string)
  : list (string * @series F) :=
  let rows := table_rows soup section_id in
  if ((length rows <? 2) || (length (header_cells rows) <? 2))%nat then []
  else flat_map (row_entry (period_labels rows)) (skipn 1 rows).

End ExtractorContract.

(** ** What the projection computes, in exact arithmetic *)

Section ProjectionContract.
Local Open Scope Q_scope.
Implicit Types (p : payload Q) (rev g w ev : Q) (gs fs : list Q).

(** The free cash flow of a period with revenue [rev]. *)
Definition fcff_of p rev : Q :=
  rev * p_ebit_margin p * (1 - p_tax_rate p)
  - rev * p_capex_pct p - rev * p_nwc_pct p.

(** The cash flows of the growth rates [gs], revenue compounding from
    [rev]. *)
Fixpoint fcffs_from p rev gs : list Q :=
  match gs with
  | [] => []
  | g :: gs' => fcff_of p (rev * (1 + g)) :: fcffs_from p (rev * (1 + g)) gs'
  end.

(** The cash flows [fs], the first of them discounted over [i + 1]
    periods, added to [ev]. *)
Fixpoint discounted w (i : nat) fs ev : Q :=
  match fs with
  | [] => ev
  | f :: fs' => discounted w (S i) fs' (ev + f / py_pow (1 + w) (i + 1))
  end.

(** The payload with another growth path. *)
Definition with_growth p gs : payload Q :=
  {| p_revenue := p_revenue p; p_growth := gs;
     p_ebit_margin := p_ebit_margin p; p_tax_rate := p_tax_rate p;
     p_capex_pct := p_capex_pct p; p_nwc_pct := p_nwc_pct p;
     p_wacc := p_wacc p; p_terminal_growth := p_terminal_growth p;
     p_net_debt := p_net_debt p; p_shares := p_shares p |}.

(** The preconditions of the monotonicity property: [wacc] above
    [terminal_growth], positive revenue, [1 + g > 0] for each growth rate,
    [1 + terminal_growth > 0], and a positive cash-flow margin. *)
Definition dcf_preconditions p : Prop :=
  p_terminal_growth p < p_wacc p
  /\ 0 < p_revenue p
  /\ Forall (fun g => 0 < 1 + g) (p_growth p)
  /\ 0 < 1 + p_terminal_growth p
  /\ p_capex_pct p + p_nwc_pct p < p_ebit_margin p * (1 - p_tax_rate p).

End ProjectionContract.

(** ** Worked inputs *)

Section Samples.
Local Open Scope string_scope.
Local Open Scope list_scope.

Definition cell (tag s : string) : node := Elem tag [] [Text s].

Definition tr (cells : list node) : node := Elem "tr" [] cells.

Definition section_of (id : string) (content : list node) : node :=
  Elem "section" [("class", "card"); ("id", id)] content.

Definition table_of (rows : list node) : node :=
  Elem "table" [("class", "data-table")] [Elem "tbody" [] rows].

(** A page with a profit and loss section, a balance sheet whose rows are
    shorter and longer than the header, a section without a table, a
    table with a header row only, and a table whose header row has a
    single header cell. *)
Definition sample_soup : node :=
  Elem "[document]" []
    [Elem "html" []
       [Elem "body" []
          [section_of "profit-loss"
             [Elem "h2" [] [Text "Profit & Loss"];
              table_of
                [tr [cell "th" ""; cell "th" " Mar 2023 "; cell "th" "Mar 2024";
                     cell "th" "TTM"];
                 tr [cell "td" " Sales + "; cell "td" "1,000"; cell "td" "1,200";
                     cell "td" "1,250.5"];
                 tr [cell "td" "Operating Profit"; cell "td" "200";
                     cell "td" "n/a"; cell "td" "250"];
                 tr [cell "td" "Depreciation"; cell "td" "20"; cell "td" "25";
                     cell "td" "30"];
                 tr [cell "td" "Profit before tax"; cell "td" "150";
                     cell "td" "180"; cell "td" "200"];
                 tr [cell "td" "Net Profit +"; cell "td" "110"; cell "td" "135";
                     cell "td" "150"];
                 tr [cell "td" "Depreciation"; cell "td" "21"; cell "td" "26";
                     cell "td" "31"]]];
           section_of "balance-sheet"
             [table_of
                [tr [cell "th" ""; cell "th" "Mar 2023"; cell "th" "Mar 2024"];
                 tr [cell "td" "Fixed Assets +"; cell "td" "500"; cell "td" "560"];
                 tr [cell "td" "Borrowings +"; cell "td" "300"];
                 tr [cell "td" "Investments"; cell "td" "40"; cell "td" "50";
                     cell "td" "60"];
                 tr [cell "td" "Total"]]];
           section_of "quarters" [Elem "p" [] [Text "No data"]];
           section_of "ratios" [table_of [tr [cell "th" ""; cell "th" "Mar 2024"]]];
           section_of "peers"
             [table_of
                [tr [cell "th" "Name"; cell "td" "CMP"];
                 tr [cell "td" "Acme"; cell "td" "12"]]]]]].

Definition sample_pl : @statement_table Q :=
  [("Sales +", [("Mar 2023", 1000); ("Mar 2024", 1200); ("TTM", 2501 # 2)]);
   ("Operating Profit", [("Mar 2023", 200); ("Mar 2024", 0); ("TTM", 250)]);
   ("Depreciation", [("Mar 2023", 21); ("Mar 2024", 26); ("TTM", 31)]);
   ("Profit before tax", [("Mar 2023", 150); ("Mar 2024", 180); ("TTM", 200)]);
   ("Net Profit +", [("Mar 2023", 110); ("Mar 2024", 135); ("TTM", 150)])]%Q.

Definition sample_bs : @statement_table Q :=
  [("Fixed Assets +", [("Mar 2023", 500); ("Mar 2024", 560)]);
   ("Borrowings +", [("Mar 2023", 300)]);
   ("Investments", [("Mar 2023", 40); ("Mar 2024", 50)])]%Q.

(** A profit and loss table of a year with a loss before tax. *)
Definition sample_pl_loss : @statement_table Q :=
  [("Sales +", [("Mar 2024", 900)]);
   ("Profit before tax", [("Mar 2024", - (5))]);
   ("Net Profit +", [("Mar 2024", - (7))])]%Q.

(** A data row under a header row that repeats a period label. *)
Definition repeated_labels : list string := ["Mar 2024"; "Mar 2024"].

Definition sample_row : node :=
  tr [cell "td" "Sales +"; cell "td" "1"; cell "td" "2"].

(** Upper-casing of the letters [a] to [z], which is [str.upper] on a
    ticker of ASCII characters. *)
Definition ascii_upper (s : string) : string :=
  string_of_list_ascii
    (map (fun c =>
            let n := nat_of_ascii c in
            if ((97 <=? n) && (n <=? 122))%nat then ascii_of_nat (n - 32) else c)
         (list_ascii_of_string s)).

(** A site that serves a page for [INFY], markup the parser rejects for
    [ODD], answers 404 for [GONE] and is unreachable for anything else. *)
Definition sample_http_get (url : string) : outcome http_response :=
  if String.eqb url "https://www.screener.in/company/INFY/"
  then Done {| status_code := 200; body := "<html>" |}
  else if String.eqb url "https://www.screener.in/company/ODD/"
  then Done {| status_code := 200; body := "<![foo]>" |}
  else if String.eqb url "https://www.screener.in/company/GONE/"
  then Done {| status_code := 404; body := "Not found" |}
  else Failed RequestException.

(** A site that has gone away. *)
Definition no_network (url : string) : outcome http_response :=
  Failed RequestException.

(** A parser that rejects the declaration [<![foo]>] and reads every
    other page as the sample page. *)
Definition sample_parser (html : string) : outcome node :=
  if String.eqb html "<![foo]>" then Failed ParserError else Done sample_soup.

Definition sample_financials : financials Q :=
  {| profit_loss := sample_pl; balance_sheet := sample_bs; cash_flow := [] |}.

(** A cache that holds [INFY] since time 1000. *)
Definition sample_cache : dict (cache_entry Q) :=
  [("INFY", {| c_timestamp := 1000; c_data := sample_financials |})]%Q.

(** A balance sheet with two periods of other assets and liabilities. *)
Definition sample_bs_nwc : @statement_table Q :=
  [("Other Assets +", [("Mar 2023", 100); ("Mar 2024", 130)]);
   ("Other Liabilities +", [("Mar 2023", 80); ("Mar 2024", 90)])]%Q.

(** A profit and loss table without sales. *)
Definition sample_pl_no_sales : @statement_table Q :=
  [("Sales +", [("Mar 2024", 0)]); ("Operating Profit", [("Mar 2024", 12)])]%Q.

(** The payload of the single-period scenario, with growth rate [g]. *)
Definition single_period (g : Q) : payload Q :=
  {| p_revenue := 1000; p_growth := [g]; p_ebit_margin := 0.2;
     p_tax_rate := 0.25; p_capex_pct := 0; p_nwc_pct := 0; p_wacc := 0.10;
     p_terminal_growth := 0.03; p_net_debt := 0; p_shares := 100 |}%Q.

Definition single_period_b64 (g : float) : payload float :=
  {| p_revenue := 1000; p_growth := [g]; p_ebit_margin := 0.2;
     p_tax_rate := 0.25; p_capex_pct := 0; p_nwc_pct := 0; p_wacc := 0.10;
     p_terminal_growth := 0.03; p_net_debt := 0; p_shares := 100 |}%float.

(** A single period in which binary64 computes every step of [run_dcf]
    without rounding error, at growth 0 and at growth 0.125: the rates are
    sums of a few powers of two. *)
Definition dyadic_period (g : float) : payload float :=
  {| p_revenue := 1152; p_growth := [g]; p_ebit_margin := 0.25;
     p_tax_rate := 0.25; p_capex_pct := 0.0625; p_nwc_pct := 0.03125;
     p_wacc := 0.125; p_terminal_growth := 0.0625; p_net_debt := 0;
     p_shares := 64 |}%float.

(** A single period whose enterprise value is half a cent away from a
    cent, at the growth rates [rate_below] and [rate_above]. *)
Definition half_cent_period (g : float) : payload float :=
  {| p_revenue := 4900; p_growth := [g]; p_ebit_margin := 0.25;
     p_tax_rate := 0.25; p_capex_pct := 0.06; p_nwc_pct := 0.05;
     p_wacc := 0.08; p_terminal_growth := 0.06; p_net_debt := 0;
     p_shares := 100 |}%float.

Definition rate_below : float := 1.3956550362070885e-05%float.

Definition rate_above : float := 1.395655036229293e-05%float.

(** The same scenario with no shares. *)
Definition no_shares : payload Q :=
  {| p_revenue := 1000; p_growth := [0]; p_ebit_margin := 0.2;
     p_tax_rate := 0.25; p_capex_pct := 0; p_nwc_pct := 0; p_wacc := 0.10;
     p_terminal_growth := 0.03; p_net_debt := 0; p_shares := 0 |}%Q.

End Samples.

(** * Properties *)

(** ** Dictionaries *)

Section DictFacts.
Context {V : Type}.
Implicit Types (d : dict V) (k : string) (v : V).

Lemma dict_of_pairs_update (pairs : list (string * V)) :
  dict_of_pairs pairs = dict_update [] pairs.
Proof. reflexivity. Qed.

Lemma dict_get_set_eq d k v : dict_get (dict_set d k v) k = Some v.
Proof.
  induction d as [| [k' v'] d IH]; simpl.
  - now rewrite String.eqb_refl.
  - destruct (String.eqb k' k) eqn:E; simpl; rewrite E; auto.
Qed.

Lemma dict_get_set_neq d k k' v :
  k <> k' -> dict_get (dict_set d k v) k' = dict_get d k'.
Proof.
  intros Hne. induction d as [| [k0 v0] d IH]; simpl.
  - apply String.eqb_neq in Hne. now rewrite Hne.
  - destruct (String.eqb k0 k) eqn:E; simpl.
    + apply String.eqb_eq in E. subst k0.
      apply String.eqb_neq in Hne. now rewrite Hne.
    + destruct (String.eqb k0 k'); auto.
Qed.

Lemma dict_get_In_keys d k : dict_get d k <> None <-> In k (keys d).
Proof.
  induction d as [| [k0 v0] d IH]; simpl.
  - split; [congruence | tauto].
  - destruct (String.eqb k0 k) eqn:E.
    + apply String.eqb_eq in E. split; [auto | congruence].
    + apply String.eqb_neq in E. rewrite IH. split; [auto | intros [Heq | Hin]; [contradiction | exact Hin]].
Qed.

Lemma dict_get_None d k : dict_get d k = None <-> ~ In k (keys d).
Proof.
  rewrite <- dict_get_In_keys. destruct (dict_get d k) as [v |].
  - split; [discriminate | intros Hn; exfalso; apply Hn; discriminate].
  - split; [intros _ Hn; now apply Hn | reflexivity].
Qed.

(** In a dict (keys pairwise distinct) the entry of a key is the value
    [d.get] returns. *)
Lemma dict_get_In d k v : NoDup (keys d) -> In (k, v) d -> dict_get d k = Some v.
Proof.
  induction d as [| [k0 v0] d IH]; simpl; [tauto |].
  intros Hnd [Heq | Hin].
  - injection Heq as -> ->. now rewrite String.eqb_refl.
  - inversion Hnd as [| ? ? Hnot Hnd']; subst.
    destruct (String.eqb k0 k) eqn:E.
    + apply String.eqb_eq in E. subst. exfalso. apply Hnot.
      change k with (fst (k, v)). now apply in_map.
    + auto.
Qed.

Lemma keys_dict_set_in d k v : In k (keys d) -> keys (dict_set d k v) = keys d.
Proof.
  induction d as [| [k0 v0] d IH]; simpl; [tauto |].
  intros Hin. destruct (String.eqb k0 k) eqn:E; simpl; auto.
  f_equal. apply IH. apply String.eqb_neq in E. destruct Hin; tauto.
Qed.

Lemma dict_set_notin d k v : ~ In k (keys d) -> dict_set d k v = d ++ [(k, v)].
Proof.
  induction d as [| [k0 v0] d IH]; simpl; auto.
  intros Hn. destruct (String.eqb k0 k) eqn:E.
  - apply String.eqb_eq in E. tauto.
  - f_equal. apply IH. tauto.
Qed.

Lemma In_keys_dict_set d k v k' :
  In k' (keys (dict_set d k v)) <-> k' = k \/ In k' (keys d).
Proof.
  rewrite <- !dict_get_In_keys.
  destruct (string_dec k k') as [-> | Hne].
  - rewrite dict_get_set_eq. split; [auto | congruence].
  - rewrite dict_get_set_neq by assumption.
    split; [auto | intros [? | ?]; congruence].
Qed.

Lemma NoDup_keys_dict_set d k v : NoDup (keys d) -> NoDup (keys (dict_set d k v)).
Proof.
  intros Hnd. destruct (in_dec string_dec k (keys d)) as [Hin | Hn].
  - now rewrite keys_dict_set_in.
  - rewrite dict_set_notin by assumption. unfold keys. rewrite map_app. simpl.
    apply NoDup_rev in Hnd. rewrite <- (rev_involutive (map fst d ++ [k])).
    apply NoDup_rev. rewrite rev_app_distr. simpl. constructor; auto.
    now rewrite <- in_rev.
Qed.

Lemma NoDup_keys_dict_update pairs : forall d,
  NoDup (keys d) -> NoDup (keys (dict_update d pairs)).
Proof.
  induction pairs as [| [k v] l IH]; intros d Hnd; simpl; auto.
  apply IH. now apply NoDup_keys_dict_set.
Qed.

Lemma In_keys_dict_update pairs : forall d k,
  In k (keys (dict_update d pairs)) <-> In k (keys d) \/ In k (map fst pairs).
Proof.
  induction pairs as [| [k0 v0] l IH]; intros d k; simpl.
  - tauto.
  - unfold dict_update in IH |- *. simpl. rewrite IH, In_keys_dict_set.
    split; intros; intuition auto.
Qed.

Lemma dict_get_update_notin pairs : forall d k,
  ~ In k (map fst pairs) -> dict_get (dict_update d pairs) k = dict_get d k.
Proof.
  induction pairs as [| [k0 v0] l IH]; intros d k Hn; simpl in *; auto.
  unfold dict_update in IH |- *. simpl.
  rewrite IH by tauto. apply dict_get_set_neq. tauto.
Qed.

(** Last assignment wins. *)
Lemma dict_get_update_last l1 k v l2 d :
  ~ In k (map fst l2) ->
  dict_get (dict_update d (l1 ++ (k, v) :: l2)) k = Some v.
Proof.
  intros Hn. unfold dict_update. rewrite fold_left_app. simpl.
  fold (dict_update (dict_set (fold_left (fun d kv => dict_set d (fst kv) (snd kv)) l1 d) k v) l2).
  rewrite dict_get_update_notin by assumption. apply dict_get_set_eq.
Qed.

(** A value found after the assignments was there before or was
    assigned. *)
Lemma dict_get_update_inv pairs : forall d k v,
  dict_get (dict_update d pairs) k = Some v ->
  dict_get d k = Some v \/ In (k, v) pairs.
Proof.
  induction pairs as [| [k0 v0] l IH]; intros d k v Hget; simpl in *; auto.
  unfold dict_update in IH, Hget. simpl in Hget.
  destruct (IH _ _ _ Hget) as [Hset | Hin]; [| auto].
  destruct (string_dec k0 k) as [-> | Hne].
  - rewrite dict_get_set_eq in Hset. injection Hset as ->. auto.
  - rewrite dict_get_set_neq in Hset by assumption. auto.
Qed.

(** Pairs with pairwise distinct new keys are appended as they are. *)
Lemma dict_update_NoDup pairs : forall d,
  NoDup (keys d ++ map fst pairs) -> dict_update d pairs = d ++ pairs.
Proof.
  induction pairs as [| [k v] l IH]; intros d Hnd; simpl.
  - now rewrite app_nil_r.
  - unfold dict_update in IH |- *. simpl in *.
    assert (Hk : ~ In k (keys d)).
    { apply NoDup_remove_2 in Hnd. intros Hin. apply Hnd. apply in_or_app. auto. }
    rewrite dict_set_notin by assumption.
    rewrite IH.
    + now rewrite <- app_assoc.
    + unfold keys in *. rewrite map_app. simpl. rewrite <- app_assoc. exact Hnd.
Qed.

(** A dict has no more entries than pairs were assigned, and fewer as soon
    as two pairs share a key. *)
Lemma length_dict_of_pairs_le (pairs : list (string * V)) :
  (length (dict_of_pairs pairs) <= length pairs)%nat.
Proof.
  rewrite <- (length_map fst pairs), <- (length_map fst (dict_of_pairs pairs)).
  apply NoDup_incl_length.
  - apply (NoDup_keys_dict_update pairs []). constructor.
  - intros k Hin. apply (In_keys_dict_update pairs []) in Hin. simpl in Hin. tauto.
Qed.

Lemma length_dict_of_pairs_lt (pairs : list (string * V)) :
  ~ NoDup (map fst pairs) ->
  (length (dict_of_pairs pairs) < length pairs)%nat.
Proof.
  intros Hdup.
  destruct (Nat.lt_ge_cases (length (dict_of_pairs pairs)) (length pairs)) as [Hlt | Hge];
    [exact Hlt | exfalso].
  apply Hdup.
  apply NoDup_incl_NoDup with (l := keys (dict_of_pairs pairs)).
  - apply (NoDup_keys_dict_update pairs []). constructor.
  - unfold keys. now rewrite !length_map.
  - intros k Hin. apply (In_keys_dict_update pairs []) in Hin. simpl in Hin. tauto.
Qed.

End DictFacts.

(** ** Sequences *)

Lemma combine_min_firstn {A B : Type} (l : list A) (l' : list B) :
  combine l l' =
  combine (firstn (Nat.min (length l) (length l')) l)
          (firstn (Nat.min (length l) (length l')) l').
Proof.
  rewrite <- combine_firstn. symmetry. apply firstn_all2.
  rewrite length_combine. apply Nat.le_refl.
Qed.

Lemma map_fst_combine {A B : Type} (l : list A) : forall l' : list B,
  map fst (combine l l') = firstn (length l') l.
Proof.
  induction l as [| a l IH]; intros [| b l']; simpl; auto.
  - f_equal. apply IH.
Qed.

Lemma nth_error_combine {A B : Type} (l : list A) : forall (l' : list B) i a b,
  nth_error l i = Some a -> nth_error l' i = Some b ->
  nth_error (combine l l') i = Some (a, b).
Proof.
  induction l as [| x l IH]; intros [| y l'] [| i] a b Ha Hb; simpl in *;
    try discriminate.
  - congruence.
  - now apply IH.
Qed.

Lemma getitem_neg_last {A : Type} (l : list A) (x : A) :
  getitem_neg (l ++ [x]) 1 = Ok x.
Proof.
  unfold getitem_neg, getitem.
  assert (Hlen : length (l ++ [x]) = S (length l))
    by (rewrite length_app; simpl; lia).
  rewrite Hlen.
  destruct (Nat.leb_spec 1 (S (length l))) as [_ | Hlt]; [| lia].
  replace (S (length l) - 1)%nat with (length l) by lia.
  rewrite nth_error_app2 by lia. now rewrite Nat.sub_diag.
Qed.

Lemma getitem_neg_last2 {A : Type} (l : list A) (x y : A) :
  getitem_neg (l ++ [x; y]) 2 = Ok x.
Proof.
  unfold getitem_neg, getitem.
  assert (Hlen : length (l ++ [x; y]) = S (S (length l)))
    by (rewrite length_app; simpl; lia).
  rewrite Hlen.
  destruct (Nat.leb_spec 2 (S (S (length l)))) as [_ | Hlt]; [| lia].
  replace (S (S (length l)) - 2)%nat with (length l) by lia.
  rewrite nth_error_app2 by lia. now rewrite Nat.sub_diag.
Qed.

(** ** The statement extractor *)

Section ExtractorFacts.
Context {F : Type} `{PyFloat F}.
Local Open Scope string_scope.
Local Open Scope list_scope.

Lemma parse_cell_value (values : list F) (c : node) :
  parse_cell values c = Ok (values ++ [cell_value c]).
Proof.
  unfold parse_cell, cell_value, py_float.
  destruct (f_of_string _); reflexivity.
Qed.

Lemma for_each_parse_cell (cells : list node) : forall values : list F,
  for_each cells parse_cell values = Ok (values ++ map cell_value cells).
Proof.
  induction cells as [| c cells IH]; intros values; simpl.
  - now rewrite app_nil_r.
  - rewrite parse_cell_value. simpl. rewrite IH. now rewrite <- app_assoc.
Qed.

Lemma parse_row_entry (headers : list string) (data : statement_table) (row : node) :
  parse_row headers data row = Ok (dict_update data (row_entry headers row)).
Proof.
  unfold parse_row, row_entry.
  destruct (find_all ["td"; "th"] [] row) as [| c0 [| c1 cs]]; try reflexivity.
  cbn [length Nat.ltb Nat.leb getitem nth_error bind skipn].
  rewrite for_each_parse_cell. reflexivity.
Qed.

Lemma for_each_parse_row (headers : list string) (rows : list node) :
  forall data : statement_table,
  for_each rows (parse_row headers) data =
  Ok (dict_update data (flat_map (row_entry headers) rows)).
Proof.
  induction rows as [| row rows IH]; intros data; simpl.
  - reflexivity.
  - rewrite parse_row_entry. simpl. rewrite IH.
    unfold dict_update. now rewrite fold_left_app.
Qed.

(** [parse_table] assigns the labelled series of the data rows, in row
    order, into an empty dict. *)
Lemma parse_table_entries (soup : node) (section_id : string) :
  parse_table soup section_id = Ok (dict_of_pairs (table_entries soup section_id)).
Proof.
  unfold parse_table, table_entries, table_rows, period_labels.
  destruct (find "section" _ soup) as [section |]; [| reflexivity].
  destruct (find "table" [] section) as [table |]; [| reflexivity].
  destruct (find_all ["tr"] [] table) as [| row0 rows] eqn:Erows; [reflexivity |].
  destruct (length (row0 :: rows) <? 2)%nat eqn:E2; [reflexivity |].
  cbn [getitem nth_error bind header_cells orb].
  destruct (length (find_all ["th"] [] row0) <? 2)%nat; [reflexivity |].
  now rewrite for_each_parse_row.
Qed.

Lemma parse_table_total (soup : node) (section_id : string) :
  exists data : statement_table, parse_table soup section_id = Ok data.
Proof. eexists. apply parse_table_entries. Qed.

Lemma find_all_th_le_cells (row : node) :
  (length (find_all ["th"] [] row) <= length (find_all ["td"; "th"] [] row))%nat.
Proof.
  unfold find_all. induction (descendants row) as [| n l IH]; simpl; auto.
  assert (Himp : matches ["th"] [] n = true -> matches ["td"; "th"] [] n = true).
  { destruct n as [s | name attrs cs]; simpl; auto.
    destruct (String.eqb name "th"); simpl; [| discriminate].
    intros _. now rewrite orb_true_r. }
  destruct (matches ["th"] [] n).
  - rewrite Himp by reflexivity. simpl. lia.
  - destruct (matches ["td"; "th"] [] n); simpl; lia.
Qed.

(** Every series of an extracted table has pairwise distinct period
    labels, as a Python dict does. *)
Lemma parse_table_series_NoDup (soup : node) (section_id : string)
  (data : statement_table) (k : string) (s : series) :
  parse_table soup section_id = Ok data ->
  dict_get data k = Some s ->
  NoDup (keys s).
Proof.
  rewrite parse_table_entries. intros [= <-] Hget.
  rewrite dict_of_pairs_update in Hget.
  apply dict_get_update_inv in Hget as [Hget | Hin]; [discriminate |].
  unfold table_entries in Hin.
  destruct (_ || _)%bool; [contradiction |].
  apply in_flat_map in Hin as (row & _ & Hin).
  unfold row_entry in Hin.
  destruct (find_all ["td"; "th"] [] row) as [| c0 [| c1 cs]]; try contradiction.
  destruct Hin as [[= _ <-] | []].
  apply (NoDup_keys_dict_update _ []). constructor.
Qed.

Lemma latest_value_total (row : @series F) : exists x, latest_value row = Ok x.
Proof.
  destruct row as [| [k v] row]; [eexists; reflexivity |].
  unfold latest_value, dict_contains, dict_getitem.
  destruct (dict_get ((k, v) :: row) "TTM") as [x |]; [eexists; reflexivity |].
  destruct (exists_last (l := values ((k, v) :: row))) as (l' & x & ->);
    [discriminate |].
  exists x. apply getitem_neg_last.
Qed.

(** C2.  [latest_value] returns [0] on an empty series; the value keyed
    ["TTM"] when that key is present, wherever it stands in the series; and
    otherwise the value of the last period in insertion order. *)
Theorem latest_value_policy :
  latest_value (F := F) [] = Ok (f_of_Q 0)
  /\ (forall (row : series) (v : F),
        NoDup (keys row) -> In ("TTM", v) row -> latest_value row = Ok v)
  /\ (forall (d : series) (k : string) (v : F),
        ~ In "TTM" (keys (d ++ [(k, v)])) ->
        latest_value (d ++ [(k, v)]) = Ok v).
Proof.
  split; [reflexivity | split].
  - intros row v Hnd Hin.
    pose proof (dict_get_In _ _ _ Hnd Hin) as Hget.
    destruct row as [| e row]; [contradiction |].
    unfold latest_value, dict_contains, dict_getitem. now rewrite Hget.
  - intros d k v Hn.
    apply dict_get_None in Hn.
    unfold latest_value, dict_contains. rewrite Hn.
    destruct (d ++ [(k, v)]) as [| e l] eqn:E.
    + destruct d; discriminate.
    + rewrite <- E. unfold values. rewrite map_app. simpl.
      apply getitem_neg_last.
Qed.

(** C3.  [parse_table] returns the empty table, and does not raise, when
    the section is absent, when the section holds no table, when its first
    table has fewer than two rows, and when the header row has fewer than
    two header cells (in particular fewer than two cells at all). *)
Theorem parse_table_empty (soup : node) (section_id : string) :
  find "section" [("id", section_id)] soup = None
  \/ (exists section,
        find "section" [("id", section_id)] soup = Some section
        /\ find "table" [] section = None)
  \/ (exists section table,
        find "section" [("id", section_id)] soup = Some section
        /\ find "table" [] section = Some table
        /\ (length (find_all ["tr"] [] table) < 2)%nat)
  \/ (exists section table row0 rows,
        find "section" [("id", section_id)] soup = Some section
        /\ find "table" [] section = Some table
        /\ find_all ["tr"] [] table = row0 :: rows
        /\ ((length (find_all ["th"] [] row0) < 2)%nat
            \/ (length (find_all ["td"; "th"] [] row0) < 2)%nat)) ->
  parse_table (F := F) soup section_id = Ok [].
Proof.
  unfold parse_table.
  intros [Hs | [(section & Hs & Ht) | [(section & table & Hs & Ht & Hr)
    | (section & table & row0 & rows & Hs & Ht & Hr & Hh)]]]; rewrite Hs.
  - reflexivity.
  - now rewrite Ht.
  - rewrite Ht. apply Nat.ltb_lt in Hr. now rewrite Hr.
  - rewrite Ht, Hr.
    destruct (length (row0 :: rows) <? 2)%nat; [reflexivity |].
    cbn [getitem nth_error bind].
    assert (Hth : (length (find_all ["th"] [] row0) < 2)%nat).
    { destruct Hh as [Hh | Hh]; [exact Hh |].
      pose proof (find_all_th_le_cells row0). lia. }
    apply Nat.ltb_lt in Hth. now rewrite Hth.
Qed.

(** C4.  Every data cell has its commas removed before it is read as a
    number; a cell that reads as [x] contributes [x] and a cell that does
    not contributes [0.0]; so the values of a row are the values of its
    cells after the first, and neither a row nor [parse_table] raises,
    whatever the cells hold. *)
Theorem parse_cell_total :
  (forall (values : list F) (c : node) (x : F),
     f_of_string (remove_char "," (strip (text c))) = Some x ->
     parse_cell values c = Ok (values ++ [x]))
  /\ (forall (values : list F) (c : node),
        f_of_string (remove_char "," (strip (text c))) = None ->
        parse_cell values c = Ok (values ++ [f_of_Q 0]))
  /\ (forall (cells : list node) (values : list F),
        for_each cells parse_cell values = Ok (values ++ map cell_value cells))
  /\ (forall (headers : list string) (data : statement_table) (row c0 c1 : node)
        (cs : list node),
        find_all ["td"; "th"] [] row = c0 :: c1 :: cs ->
        parse_row headers data row =
        Ok (dict_set data (strip (text c0))
              (dict_of_pairs (combine headers (map cell_value (c1 :: cs))))))
  /\ (forall (headers : list string) (data : statement_table) (row : node),
        exists data', parse_row headers data row = Ok data')
  /\ (forall (soup : node) (section_id : string),
        exists data : statement_table, parse_table soup section_id = Ok data).
Proof.
  repeat split.
  - intros values c x Hx. rewrite parse_cell_value. unfold cell_value. now rewrite Hx.
  - intros values c Hx. rewrite parse_cell_value. unfold cell_value. now rewrite Hx.
  - intros cells values. apply for_each_parse_cell.
  - intros headers data row c0 c1 cs Hc. rewrite parse_row_entry.
    unfold row_entry. now rewrite Hc.
  - intros headers data row. eexists. apply parse_row_entry.
  - apply parse_table_total.
Qed.

(** C5.  The value cells of a row and the period labels are paired by
    position up to the shorter of the two: the row's series is built from
    the first [n] labels and the first [n] values, [n] the smaller count,
    the [i]-th pair being the [i]-th label with the [i]-th value; what is
    beyond [n] in the longer sequence is dropped, and the row does not
    raise (no index is out of range). *)
Theorem parse_row_pairs_up_to_shorter
  (headers : list string) (data : statement_table) (row c0 c1 : node)
  (cs : list node) :
  find_all ["td"; "th"] [] row = c0 :: c1 :: cs ->
  let vals := map cell_value (c1 :: cs) in
  let n := Nat.min (length headers) (length vals) in
  parse_row headers data row =
    Ok (dict_set data (strip (text c0))
          (dict_of_pairs (combine (firstn n headers) (firstn n vals))))
  /\ length (combine headers vals) = n
  /\ (forall i h v,
        nth_error headers i = Some h -> nth_error vals i = Some v ->
        nth_error (combine (firstn n headers) (firstn n vals)) i = Some (h, v))
  /\ (NoDup (firstn n headers) ->
      dict_of_pairs (combine (firstn n headers) (firstn n vals)) =
      combine (firstn n headers) (firstn n vals)).
Proof.
  intros Hc vals n. repeat split.
  - rewrite parse_row_entry. unfold row_entry. rewrite Hc.
    fold vals. unfold n. now rewrite <- combine_min_firstn.
  - apply length_combine.
  - intros i h v Hh Hv. unfold n. rewrite <- combine_min_firstn.
    now apply nth_error_combine.
  - intros Hnd. rewrite dict_of_pairs_update. apply dict_update_NoDup. simpl.
    rewrite map_fst_combine, firstn_firstn.
    replace (Nat.min (length (firstn n vals)) n) with n; [exact Hnd |].
    rewrite length_firstn. unfold n. lia.
Qed.

(** C6.  The table [parse_table] returns has one entry per distinct label
    among the data rows, and the series of a label is that of the last row
    bearing it. *)
Theorem parse_table_last_wins (soup : node) (section_id : string) :
  exists data : statement_table,
    parse_table soup section_id = Ok data
    /\ NoDup (keys data)
    /\ (forall k,
          In k (keys data) <-> In k (map fst (table_entries soup section_id)))
    /\ (forall l1 k s l2,
          table_entries soup section_id = l1 ++ (k, s) :: l2 ->
          ~ In k (map fst l2) ->
          dict_get data k = Some s).
Proof.
  exists (dict_of_pairs (table_entries soup section_id)).
  split; [apply parse_table_entries |].
  rewrite dict_of_pairs_update. repeat split.
  - apply NoDup_keys_dict_update. constructor.
  - intros Hin. apply In_keys_dict_update in Hin. simpl in Hin. tauto.
  - intros Hin. apply In_keys_dict_update. auto.
  - intros l1 k s l2 -> Hn. now apply dict_get_update_last.
Qed.

(** C10.  Under a header row with repeated period labels, a row's series
    keeps one entry per distinct label, holding the value of the last
    column that bears the label; the values of the earlier columns with
    that label are dropped, and the series then has fewer entries than the
    row has value cells. *)
Theorem parse_row_duplicate_labels
  (headers : list string) (data : statement_table) (row c0 c1 : node)
  (cs : list node) :
  find_all ["td"; "th"] [] row = c0 :: c1 :: cs ->
  let vals := map cell_value (c1 :: cs) in
  let s := dict_of_pairs (combine headers vals) in
  parse_row headers data row = Ok (dict_set data (strip (text c0)) s)
  /\ NoDup (keys s)
  /\ (forall h, In h (keys s) <-> In h (firstn (length vals) headers))
  /\ (forall l1 h v l2,
        combine headers vals = l1 ++ (h, v) :: l2 ->
        ~ In h (map fst l2) ->
        dict_get s h = Some v)
  /\ (length s <= length vals)%nat
  /\ (~ NoDup (firstn (length vals) headers) -> (length s < length vals)%nat).
Proof.
  intros Hc vals s.
  assert (Hlen : (length (combine headers vals) <= length vals)%nat)
    by (rewrite length_combine; lia).
  repeat split.
  - rewrite parse_row_entry. unfold row_entry. now rewrite Hc.
  - apply (NoDup_keys_dict_update (combine headers vals) []). constructor.
  - intros Hin. apply (In_keys_dict_update (combine headers vals) []) in Hin.
    rewrite map_fst_combine in Hin. simpl in Hin. tauto.
  - intros Hin. apply (In_keys_dict_update (combine headers vals) []).
    rewrite map_fst_combine. auto.
  - intros l1 h v l2 Heq Hn. unfold s. rewrite dict_of_pairs_update, Heq.
    now apply dict_get_update_last.
  - pose proof (length_dict_of_pairs_le (combine headers vals)) as Hle.
    fold s in Hle. lia.
  - intros Hdup. rewrite <- map_fst_combine in Hdup.
    pose proof (length_dict_of_pairs_lt _ Hdup) as Hlt. fold s in Hlt. lia.
Qed.

End ExtractorFacts.

(** ** Input derivation *)

Section InputsFacts.
Context {F : Type} `{PyFloat F}.
Local Open Scope py_scope.
Local Open Scope string_scope.
Local Open Scope list_scope.

Lemma two_last_entries {V : Type} (d : dict V) :
  (2 <= length d)%nat ->
  exists d0 k2 v2 k1 v1, d = d0 ++ [(k2, v2); (k1, v1)].
Proof.
  intros Hlen.
  destruct (exists_last (l := d)) as (d1 & [k1 v1] & ->);
    [intros ->; simpl in Hlen; lia |].
  rewrite length_app in Hlen. simpl in Hlen.
  destruct (exists_last (l := d1)) as (d0 & [k2 v2] & ->);
    [intros ->; simpl in Hlen; lia |].
  exists d0, k2, v2, k1, v1. now rewrite <- app_assoc.
Qed.

(** [d[years[-1]]] and [d[years[-2]]] for [years = list(d.keys())] of
    length two or more: both lookups succeed, and they return the values
    of the last and of the second-to-last entry. *)
Lemma last_two_lookup {V : Type} (d d0 : dict V) k2 v2 k1 v1 :
  d = d0 ++ [(k2, v2); (k1, v1)] ->
  exists a b,
    getitem_neg (keys d) 1 = Ok k1 /\ dict_getitem d k1 = Ok a
    /\ getitem_neg (keys d) 2 = Ok k2 /\ dict_getitem d k2 = Ok b
    /\ (NoDup (keys d) -> a = v1 /\ b = v2).
Proof.
  intros ->.
  assert (Hk : keys (d0 ++ [(k2, v2); (k1, v1)]) = keys d0 ++ [k2; k1])
    by (unfold keys; now rewrite map_app).
  assert (Hin : forall k, In k [k2; k1] ->
            exists x, dict_get (d0 ++ [(k2, v2); (k1, v1)]) k = Some x).
  { intros k Hk'. destruct (dict_get _ k) as [x |] eqn:E; [now exists x |].
    apply dict_get_None in E. exfalso. apply E. rewrite Hk.
    apply in_or_app. now right. }
  destruct (Hin k1) as [a Ha]; [simpl; auto |].
  destruct (Hin k2) as [b Hb]; [simpl; auto |].
  exists a, b. unfold dict_getitem. rewrite Ha, Hb, Hk.
  split; [| split; [reflexivity | split; [| split; [reflexivity |]]]].
  - change (keys d0 ++ [k2; k1]) with (keys d0 ++ [k2] ++ [k1]).
    rewrite app_assoc. apply getitem_neg_last.
  - apply getitem_neg_last2.
  - intros Hnd. rewrite <- Hk in Hnd. split.
    + rewrite (dict_get_In _ k1 v1 Hnd) in Ha; [congruence |].
      apply in_or_app. right. simpl. auto.
    + rewrite (dict_get_In _ k2 v2 Hnd) in Hb; [congruence |].
      apply in_or_app. right. simpl. auto.
Qed.

(** [x / revenue if revenue else 0] *)
Lemma ratio_or_zero (x revenue : F) :
  exists q,
    (if truthy revenue then py_div x revenue else Ok (f_of_Q 0)) = Ok q
    /\ (f_is_zero revenue = false -> q = f_div x revenue)
    /\ (f_is_zero revenue = true -> q = f_of_Q 0).
Proof.
  unfold truthy, py_div. destruct (f_is_zero revenue); simpl;
    eexists; repeat split; congruence.
Qed.

(** The body of [build_dcf_inputs] reaches its [return], with these values
    in its local variables. *)
Lemma build_dcf_body_ok (pl bs cf : @statement_table F) :
  let fa := dict_get_default bs "Fixed Assets +" [] in
  exists l,
    build_dcf_body pl bs cf = Ok l
    /\ latest_value (dict_get_default pl "Sales +" []) = Ok (l_revenue l)
    /\ latest_value (dict_get_default pl "Depreciation" []) = Ok (l_depreciation l)
    /\ latest_value (dict_get_default pl "Profit before tax" []) = Ok (l_pbt l)
    /\ latest_value (dict_get_default pl "Net Profit +" []) = Ok (l_pat l)
    /\ (f_gt (l_pbt l) (f_of_Q 0) = true ->
        l_tax_rate l = f_div (l_pbt l - l_pat l) (l_pbt l))
    /\ (f_gt (l_pbt l) (f_of_Q 0) = false -> l_tax_rate l = f_of_Q 0.25)
    /\ (forall d k2 v2 k1 v1,
          fa = d ++ [(k2, v2); (k1, v1)] -> NoDup (keys fa) ->
          l_capex l = v1 - v2 + l_depreciation l)
    /\ ((length fa < 2)%nat -> l_capex l = l_depreciation l)
    /\ (f_is_zero (l_revenue l) = false ->
        l_capex_pct l = f_div (l_capex l) (l_revenue l))
    /\ (f_is_zero (l_revenue l) = true -> l_capex_pct l = f_of_Q 0).
Proof.
  intros fa.
  destruct (latest_value_total (dict_get_default pl "Sales +" [])) as [rev Hrev].
  destruct (latest_value_total (dict_get_default pl "Operating Profit" [])) as [ebit Hebit].
  destruct (latest_value_total (dict_get_default pl "Depreciation" [])) as [dep Hdep].
  destruct (latest_value_total (dict_get_default pl "Profit before tax" [])) as [pbt Hpbt].
  destruct (latest_value_total (dict_get_default pl "Net Profit +" [])) as [pat Hpat].
  destruct (latest_value_total (dict_get_default bs "Borrowings +" [])) as [bor Hbor].
  destruct (latest_value_total (dict_get_default bs "Investments" [])) as [cash Hcash].
  (* tax rate *)
  assert (Htax : exists t,
    (if f_gt pbt (f_of_Q 0) then py_div (pbt - pat) pbt else Ok (f_of_Q 0.25)) = Ok t
    /\ (f_gt pbt (f_of_Q 0) = true -> t = f_div (pbt - pat) pbt)
    /\ (f_gt pbt (f_of_Q 0) = false -> t = f_of_Q 0.25)).
  { destruct (f_gt pbt (f_of_Q 0)) eqn:E.
    - unfold py_div. rewrite (f_gt_zero_nonzero _ E).
      eexists; repeat split; congruence.
    - eexists; repeat split; congruence. }
  destruct Htax as (t & Et & Ht1 & Ht2).
  (* capex *)
  assert (Hcapex : exists c,
    (if (2 <=? length (keys fa))%nat then
       y1 <- getitem_neg (keys fa) 1 ;;
       a <- dict_getitem fa y1 ;;
       y2 <- getitem_neg (keys fa) 2 ;;
       b <- dict_getitem fa y2 ;;
       Ok (a - b + dep)
     else Ok dep) = Ok c
    /\ (forall d k2 v2 k1 v1,
          fa = d ++ [(k2, v2); (k1, v1)] -> NoDup (keys fa) -> c = v1 - v2 + dep)
    /\ ((length fa < 2)%nat -> c = dep)).
  { unfold keys at 1. rewrite length_map.
    destruct (Nat.leb_spec 2 (length fa)) as [Hge | Hlt].
    - destruct (two_last_entries fa Hge) as (d0 & k2 & v2 & k1 & v1 & Efa).
      destruct (@last_two_lookup _ _ _ _ _ _ _ Efa) as (a & b & E1 & Ea & E2 & Eb & Hab).
      rewrite E1. cbn [bind]. rewrite Ea. cbn [bind]. rewrite E2. cbn [bind].
      rewrite Eb. cbn [bind].
      exists (a - b + dep). repeat split.
      + intros d k2' v2' k1' v1' Efa' Hnd. destruct (Hab Hnd) as [-> ->].
        rewrite Efa in Efa'.
        change [(k2, v2); (k1, v1)] with ([(k2, v2)] ++ [(k1, v1)]) in Efa'.
        change [(k2', v2'); (k1', v1')] with ([(k2', v2')] ++ [(k1', v1')]) in Efa'.
        rewrite !app_assoc in Efa'.
        apply app_inj_tail in Efa' as [Efa' E1'].
        apply app_inj_tail in Efa' as [_ E2'].
        congruence.
      + intros Hlt. lia.
    - exists dep. repeat split.
      intros d k2 v2 k1 v1 Efa _. rewrite Efa, length_app in Hlt. simpl in Hlt. lia. }
  destruct Hcapex as (c & Ec & Hc1 & Hc2).
  destruct (ratio_or_zero c rev) as (cp & Ecp & Hcp1 & Hcp2).
  destruct (ratio_or_zero ebit rev) as (em & Eem & _ & _).
  (* working capital *)
  set (oa := dict_get_default bs "Other Assets +" []).
  set (ol := dict_get_default bs "Other Liabilities +" []).
  assert (Hnwc : exists n,
    (if ((2 <=? length (keys oa)) && (2 <=? length (keys ol)))%nat then
       oy1 <- getitem_neg (keys oa) 1 ;;
       oa1 <- dict_getitem oa oy1 ;;
       oy2 <- getitem_neg (keys oa) 2 ;;
       oa2 <- dict_getitem oa oy2 ;;
       ly1 <- getitem_neg (keys ol) 1 ;;
       ol1 <- dict_getitem ol ly1 ;;
       ly2 <- getitem_neg (keys ol) 2 ;;
       ol2 <- dict_getitem ol ly2 ;;
       (if truthy rev then py_div ((oa1 - oa2) - (ol1 - ol2)) rev
        else Ok (f_of_Q 0))
     else Ok (f_of_Q 0)) = Ok n).
  { unfold keys at 1 2. rewrite !length_map.
    destruct (Nat.leb_spec 2 (length oa)) as [Hoa | Hoa]; [| now eexists].
    destruct (Nat.leb_spec 2 (length ol)) as [Hol | Hol]; [| now eexists].
    destruct (two_last_entries oa Hoa) as (d0 & k2 & v2 & k1 & v1 & Eoa).
    destruct (@last_two_lookup _ _ _ _ _ _ _ Eoa) as (a & b & E1 & Ea & E2 & Eb & _).
    destruct (two_last_entries ol Hol) as (d0' & k2' & v2' & k1' & v1' & Eol).
    destruct (@last_two_lookup _ _ _ _ _ _ _ Eol) as (a' & b' & E1' & Ea' & E2' & Eb' & _).
    cbn [andb].
    rewrite E1. cbn [bind]. rewrite Ea. cbn [bind]. rewrite E2. cbn [bind].
    rewrite Eb. cbn [bind]. rewrite E1'. cbn [bind]. rewrite Ea'. cbn [bind].
    rewrite E2'. cbn [bind]. rewrite Eb'. cbn [bind].
    destruct (ratio_or_zero ((a - b) - (a' - b')) rev) as (n & En & _).
    now exists n. }
  destruct Hnwc as (n & En).
  eexists. split.
  - unfold build_dcf_body.
    rewrite Hrev, Hebit, Hdep, Hpbt, Hpat, Hbor, Hcash. cbn [bind].
    rewrite Et. cbn [bind]. fold fa. rewrite Ec. cbn [bind].
    rewrite Ecp. cbn [bind]. fold oa ol. rewrite En. cbn [bind].
    rewrite Eem. cbn [bind]. reflexivity.
  - cbn [l_revenue l_depreciation l_pbt l_pat l_tax_rate l_capex l_capex_pct].
    repeat split; auto.
Qed.

(** C7.  [tax_rate] is [(pbt - pat) / pbt] when [pbt > 0] and the fallback
    [0.25] otherwise (that is, when [pbt <= 0]), [pbt] and [pat] being the
    [latest_value] of ["Profit before tax"] and of ["Net Profit +"] in the
    profit and loss table; the returned value is rounded to 4 decimals. *)
Theorem tax_rate_policy (pl bs cf : @statement_table F) :
  exists l r,
    build_dcf_body pl bs cf = Ok l
    /\ build_dcf_inputs pl bs cf = Ok r
    /\ latest_value (dict_get_default pl "Profit before tax" []) = Ok (l_pbt l)
    /\ latest_value (dict_get_default pl "Net Profit +" []) = Ok (l_pat l)
    /\ (f_gt (l_pbt l) (f_of_Q 0) = true ->
        l_tax_rate l = f_div (l_pbt l - l_pat l) (l_pbt l))
    /\ (f_gt (l_pbt l) (f_of_Q 0) = false -> l_tax_rate l = f_of_Q 0.25)
    /\ tax_rate r = f_round (l_tax_rate l) 4.
Proof.
  destruct (build_dcf_body_ok pl bs cf)
    as (l & El & _ & _ & Hpbt & Hpat & Ht1 & Ht2 & _).
  exists l. eexists. unfold build_dcf_inputs. rewrite El. cbn [bind].
  repeat split; auto.
Qed.

(** C8.  With two periods or more in the ["Fixed Assets +"] series of the
    balance sheet, [capex] is the value of its last period minus the value
    of the period before, plus depreciation; with fewer than two (one, or
    none) it is depreciation alone; [capex_pct] is [capex / revenue] when
    revenue is nonzero and [0] when it is zero, and is returned rounded to
    4 decimals. *)
Theorem capex_policy (pl bs cf : @statement_table F) :
  let fa := dict_get_default bs "Fixed Assets +" [] in
  exists l r,
    build_dcf_body pl bs cf = Ok l
    /\ build_dcf_inputs pl bs cf = Ok r
    /\ latest_value (dict_get_default pl "Sales +" []) = Ok (l_revenue l)
    /\ latest_value (dict_get_default pl "Depreciation" []) = Ok (l_depreciation l)
    /\ (forall d k2 v2 k1 v1,
          fa = d ++ [(k2, v2); (k1, v1)] -> NoDup (keys fa) ->
          l_capex l = v1 - v2 + l_depreciation l)
    /\ ((length fa < 2)%nat -> l_capex l = l_depreciation l)
    /\ (f_is_zero (l_revenue l) = false ->
        l_capex_pct l = f_div (l_capex l) (l_revenue l))
    /\ (f_is_zero (l_revenue l) = true -> l_capex_pct l = f_of_Q 0)
    /\ capex_pct r = f_round (l_capex_pct l) 4.
Proof.
  intros fa.
  destruct (build_dcf_body_ok pl bs cf)
    as (l & El & Hrev & Hdep & _ & _ & _ & _ & Hc1 & Hc2 & Hp1 & Hp2).
  exists l. eexists. unfold build_dcf_inputs. rewrite El. cbn [bind].
  repeat split; auto.
Qed.

End InputsFacts.

(** ** Projection and discounting, in exact arithmetic *)

Section ExactProjection.
Local Open Scope Q_scope.
Implicit Types (p : payload Q) (rev g w ev : Q) (gs fs : list Q).

(** In exact arithmetic the test [x > y] is the order of the rationals. *)
Lemma Qgtb_true_iff (x y : Q) : Qgtb x y = true <-> y < x.
Proof.
  unfold Qgtb. rewrite negb_true_iff.
  destruct (Qle_bool x y) eqn:E.
  - apply Qle_bool_iff in E. split; [discriminate | intros; lra].
  - split; [intros _ | reflexivity].
    apply Qnot_le_lt. intros Hle. apply Qle_bool_iff in Hle. congruence.
Qed.

Lemma Qgtb_false_iff (x y : Q) : Qgtb x y = false <-> x <= y.
Proof.
  unfold Qgtb. rewrite negb_false_iff. apply Qle_bool_iff.
Qed.

Lemma py_div_exact (x y : Q) : ~ y == 0 -> py_div x y = Ok (x / y).
Proof.
  intros Hy. unfold py_div. cbn [f_is_zero Q_PyFloat].
  destruct (Qeq_bool y 0) eqn:E; [| reflexivity].
  apply Qeq_bool_iff in E. contradiction.
Qed.

Lemma py_pow_pos (x : Q) (n : nat) : 0 < x -> 0 < py_pow x n.
Proof.
  intros Hx. induction n as [| n IH].
  - reflexivity.
  - change (py_pow x (S n)) with (x * py_pow x n). nra.
Qed.

Lemma forecast_loop p gs : forall rev fs,
  snd (fold_left (forecast_step p) gs (rev, fs)) = fs ++ fcffs_from p rev gs.
Proof.
  induction gs as [| g gs IH]; intros rev fs.
  - simpl. now rewrite app_nil_r.
  - change (fold_left (forecast_step p) (g :: gs) (rev, fs))
      with (fold_left (forecast_step p) gs
              (rev * (1 + g), fs ++ [fcff_of p (rev * (1 + g))])).
    rewrite IH. now rewrite <- app_assoc.
Qed.

Lemma discount_loop p fs : forall i ev,
  0 < 1 + p_wacc p ->
  for_each (enumerate_from i fs) (discount_step p) ev
  = Ok (discounted (p_wacc p) i fs ev).
Proof.
  induction fs as [| f fs IH]; intros i ev Hw.
  - reflexivity.
  - cbn [enumerate_from for_each]. unfold discount_step at 1. cbn [fst snd].
    change (@f_of_Q Q Q_PyFloat 1) with 1.
    change (@f_add Q Q_PyFloat) with Qplus.
    rewrite py_div_exact.
    + cbn [bind]. now rewrite IH.
    + pose proof (py_pow_pos (i + 1) Hw). lra.
Qed.

Lemma length_fcffs_from p gs : forall rev, length (fcffs_from p rev gs) = length gs.
Proof. induction gs; intros; simpl; auto. Qed.

Lemma fcffs_from_with_growth p gs' gs : forall rev,
  fcffs_from (with_growth p gs') rev gs = fcffs_from p rev gs.
Proof. induction gs as [| g gs IH]; intros rev; simpl; [| rewrite IH]; reflexivity. Qed.

Lemma getitem_neg_1_last (fs : list Q) :
  fs <> [] -> getitem_neg fs 1 = Ok (last fs 0).
Proof.
  intros Hne. destruct (exists_last Hne) as (l & x & ->).
  rewrite last_last. apply getitem_neg_last.
Qed.

(** What [run_dcf] holds in its local variables at its [return]. *)
Lemma run_dcf_body_exact p :
  p_growth p <> [] ->
  0 < 1 + p_wacc p ->
  ~ p_wacc p - p_terminal_growth p == 0 ->
  ~ p_shares p == 0 ->
  let fs := fcffs_from p (p_revenue p) (p_growth p) in
  let tv := last fs 0 * (1 + p_terminal_growth p)
            / (p_wacc p - p_terminal_growth p) in
  let ev := discounted (p_wacc p) 0 fs 0
            + tv / py_pow (1 + p_wacc p) (length fs) in
  run_dcf_body p =
  Ok {| d_fcffs := fs; d_tv := tv; d_ev := ev;
        d_equity := ev - p_net_debt p;
        d_fair_value := (ev - p_net_debt p) / p_shares p |}.
Proof.
  intros Hg Hw Hd Hs fs tv ev.
  unfold run_dcf_body.
  rewrite (forecast_loop p (p_growth p) (p_revenue p) []).
  cbn [app]. fold fs.
  assert (Hfs : fs <> []).
  { unfold fs. intros E. apply (f_equal (@length Q)) in E.
    rewrite length_fcffs_from in E. destruct (p_growth p); [congruence | discriminate]. }
  rewrite (getitem_neg_1_last Hfs). cbn [bind].
  change (@f_of_Q Q Q_PyFloat 1) with 1.
  change (@f_of_Q Q Q_PyFloat 0) with 0.
  change (@f_add Q Q_PyFloat) with Qplus.
  change (@f_sub Q Q_PyFloat) with Qminus.
  change (@f_mul Q Q_PyFloat) with Qmult.
  rewrite (py_div_exact _ Hd). cbn [bind].
  unfold enumerate. rewrite (discount_loop p fs 0%nat 0 Hw). cbn [bind].
  rewrite py_div_exact; [cbn [bind] |].
  - rewrite (py_div_exact _ Hs). cbn [bind]. reflexivity.
  - pose proof (py_pow_pos (length fs) Hw). lra.
Qed.

(** *** Monotonicity in the growth path *)

Lemma fcff_of_lt p (r r' : Q) :
  p_capex_pct p + p_nwc_pct p < p_ebit_margin p * (1 - p_tax_rate p) ->
  r < r' -> fcff_of p r < fcff_of p r'.
Proof.
  intros Hk Hr. unfold fcff_of.
  set (k := p_ebit_margin p * (1 - p_tax_rate p)) in *.
  assert (E : forall x, x * p_ebit_margin p * (1 - p_tax_rate p) == x * k)
    by (intros x; unfold k; ring).
  rewrite !E. nra.
Qed.

Lemma fcffs_from_lt p gs : forall r r' : Q,
  p_capex_pct p + p_nwc_pct p < p_ebit_margin p * (1 - p_tax_rate p) ->
  Forall (fun g => 0 < 1 + g) gs ->
  r < r' ->
  Forall2 Qlt (fcffs_from p r gs) (fcffs_from p r' gs).
Proof.
  induction gs as [| g gs IH]; intros r r' Hk Hpos Hr; simpl.
  - constructor.
  - inversion Hpos as [| ? ? Hg Hgs]; subst.
    assert (Hr' : r * (1 + g) < r' * (1 + g)) by nra.
    constructor; [now apply fcff_of_lt | now apply IH].
Qed.

Lemma last_lt (l : list Q) : forall l' : list Q,
  Forall2 Qlt l l' -> l <> [] -> last l 0 < last l' 0.
Proof.
  induction l as [| x l IH]; intros l' H2 Hne; [congruence |].
  inversion H2 as [| ? y ? l'' Hxy Hrest]; subst.
  destruct l as [| x2 l].
  - inversion Hrest; subst. exact Hxy.
  - inversion Hrest as [| ? y2 ? l3 ? ?]; subst.
    change (last (x2 :: l) 0 < last (y2 :: l3) 0).
    apply IH; [assumption | discriminate].
Qed.

Lemma Forall2_Qle_refl (l : list Q) : Forall2 Qle l l.
Proof. induction l; constructor; [apply Qle_refl | assumption]. Qed.

Lemma Forall2_Qlt_Qle (l l' : list Q) : Forall2 Qlt l l' -> Forall2 Qle l l'.
Proof. induction 1; constructor; [now apply Qlt_le_weak | assumption]. Qed.

(** Raising one growth rate leaves the earlier cash flows as they are and
    raises that period's and every later one. *)
Lemma fcffs_from_growth p (l1 l2 : list Q) (g g' : Q) : forall rev,
  p_capex_pct p + p_nwc_pct p < p_ebit_margin p * (1 - p_tax_rate p) ->
  0 < rev ->
  Forall (fun g => 0 < 1 + g) (l1 ++ g :: l2) ->
  g < g' ->
  Forall2 Qle (fcffs_from p rev (l1 ++ g :: l2)) (fcffs_from p rev (l1 ++ g' :: l2))
  /\ last (fcffs_from p rev (l1 ++ g :: l2)) 0
     < last (fcffs_from p rev (l1 ++ g' :: l2)) 0.
Proof.
  induction l1 as [| a l1 IH]; intros rev Hk Hrev Hpos Hg.
  - simpl in Hpos. inversion Hpos as [| ? ? Hg0 Hl2]; subst.
    assert (Hr : rev * (1 + g) < rev * (1 + g')) by nra.
    assert (H2 : Forall2 Qlt (fcffs_from p rev (g :: l2)) (fcffs_from p rev (g' :: l2))).
    { simpl. constructor; [now apply fcff_of_lt | now apply fcffs_from_lt]. }
    split; [now apply Forall2_Qlt_Qle | apply last_lt; [exact H2 | discriminate]].
  - simpl in Hpos. inversion Hpos as [| ? ? Ha Hrest]; subst.
    assert (Hrev' : 0 < rev * (1 + a)) by nra.
    destruct (IH (rev * (1 + a)) Hk Hrev' Hrest Hg) as [Hle Hlast].
    split.
    + simpl. constructor; [apply Qle_refl | exact Hle].
    + assert (Hne : forall x, fcffs_from p (rev * (1 + a)) (l1 ++ x :: l2) <> []).
      { intros x E. apply (f_equal (@length Q)) in E.
        rewrite length_fcffs_from, length_app in E. simpl in E. lia. }
      cbn [app fcffs_from].
      pose proof (Hne g) as Hn1. pose proof (Hne g') as Hn2.
      destruct (fcffs_from p (rev * (1 + a)) (l1 ++ g :: l2)); [congruence |].
      destruct (fcffs_from p (rev * (1 + a)) (l1 ++ g' :: l2)); [congruence |].
      exact Hlast.
Qed.

Lemma discounted_le w fs : forall fs' (i : nat) ev ev',
  0 < 1 + w -> Forall2 Qle fs fs' -> ev <= ev' ->
  discounted w i fs ev <= discounted w i fs' ev'.
Proof.
  induction fs as [| f fs IH]; intros fs' i ev ev' Hw H2 Hev;
    inversion H2 as [| ? f' ? fs'' Hf Hrest]; subst; simpl.
  - exact Hev.
  - apply IH; auto.
    pose proof (py_pow_pos (i + 1) Hw) as Hp.
    assert (Hi : 0 < / py_pow (1 + w) (i + 1)) by now apply Qinv_lt_0_compat.
    unfold Qdiv. nra.
Qed.

Lemma Forall2_length_Q (l l' : list Q) (R : Q -> Q -> Prop) :
  Forall2 R l l' -> length l = length l'.
Proof. induction 1; simpl; congruence. Qed.

(** *** Rounding *)

Lemma round_half_even_bounds (q : Q) :
  (Qfloor q <= round_half_even q <= Qfloor q + 1)%Z.
Proof.
  unfold round_half_even.
  destruct (q - inject_Z (Qfloor q) ?= 1 # 2);
    [destruct (Z.even (Qfloor q)) | |]; lia.
Qed.

Lemma round_half_even_le (x y : Q) :
  x <= y -> (round_half_even x <= round_half_even y)%Z.
Proof.
  intros Hxy.
  pose proof (Qfloor_resp_le _ _ Hxy) as Hf.
  assert (Hcases : (Qfloor x < Qfloor y)%Z \/ Qfloor x = Qfloor y) by lia.
  destruct Hcases as [Hlt | Heq].
  - pose proof (round_half_even_bounds x). pose proof (round_half_even_bounds y). lia.
  - unfold round_half_even. rewrite <- Heq.
    destruct (x - inject_Z (Qfloor x) ?= 1 # 2) eqn:Ex;
      destruct (y - inject_Z (Qfloor x) ?= 1 # 2) eqn:Ey;
      try destruct (Z.even (Qfloor x)); try lia;
      exfalso;
      first [apply Qeq_alt in Ex | apply Qlt_alt in Ex | apply Qgt_alt in Ex];
      first [apply Qeq_alt in Ey | apply Qlt_alt in Ey | apply Qgt_alt in Ey];
      lra.
Qed.

Lemma Qround_le (x y : Q) (n : nat) : x <= y -> Qround x n <= Qround y n.
Proof.
  intros Hxy. unfold Qround. rewrite !Qred_correct.
  assert (Hs : 0 < inject_Z (10 ^ Z.of_nat n)).
  { change 0 with (inject_Z 0). rewrite <- Zlt_Qlt. apply Z.pow_pos_nonneg; lia. }
  assert (Hr : (round_half_even (x * inject_Z (10 ^ Z.of_nat n))
                <= round_half_even (y * inject_Z (10 ^ Z.of_nat n)))%Z).
  { apply round_half_even_le. nra. }
  rewrite Zle_Qle in Hr.
  assert (Hi : 0 < / inject_Z (10 ^ Z.of_nat n)) by now apply Qinv_lt_0_compat.
  unfold Qdiv. nra.
Qed.

Lemma run_dcf_body_with_growth p gs :
  gs <> [] ->
  0 < 1 + p_wacc p ->
  ~ p_wacc p - p_terminal_growth p == 0 ->
  ~ p_shares p == 0 ->
  let fs := fcffs_from p (p_revenue p) gs in
  let tv := last fs 0 * (1 + p_terminal_growth p)
            / (p_wacc p - p_terminal_growth p) in
  let ev := discounted (p_wacc p) 0 fs 0
            + tv / py_pow (1 + p_wacc p) (length fs) in
  run_dcf_body (with_growth p gs) =
  Ok {| d_fcffs := fs; d_tv := tv; d_ev := ev;
        d_equity := ev - p_net_debt p;
        d_fair_value := (ev - p_net_debt p) / p_shares p |}.
Proof.
  intros Hg Hw Hd Hs.
  pose proof (run_dcf_body_exact (with_growth p gs) Hg Hw Hd Hs) as Hb.
  cbv zeta in Hb. rewrite !fcffs_from_with_growth in Hb. exact Hb.
Qed.

(** In exact arithmetic, under the preconditions and with [shares]
    nonzero so that [run_dcf] returns, raising one rate of the growth path
    strictly raises the enterprise value [ev] that [run_dcf] computes; the
    value it returns is [ev] rounded to 2 decimals, which does not
    decrease. *)
Lemma run_dcf_growth_exact p (l1 l2 : list Q) (g g' : Q) :
  p_growth p = l1 ++ g :: l2 ->
  g < g' ->
  dcf_preconditions p ->
  ~ p_shares p == 0 ->
  exists l l' r r',
    run_dcf_body p = Ok l
    /\ run_dcf_body (with_growth p (l1 ++ g' :: l2)) = Ok l'
    /\ run_dcf p = Ok r
    /\ run_dcf (with_growth p (l1 ++ g' :: l2)) = Ok r'
    /\ d_ev l < d_ev l'
    /\ enterprise_value r = Qround (d_ev l) 2
    /\ enterprise_value r' = Qround (d_ev l') 2
    /\ enterprise_value r <= enterprise_value r'.
Proof.
  intros Hgs Hg (Hwt & Hrev & Hpos & Htg & Hk) Hs.
  set (p' := with_growth p (l1 ++ g' :: l2)).
  assert (Hw : 0 < 1 + p_wacc p) by lra.
  assert (Hd : ~ p_wacc p - p_terminal_growth p == 0) by lra.
  assert (Hne : p_growth p <> []) by (rewrite Hgs; destruct l1; discriminate).
  pose proof (run_dcf_body_exact p Hne Hw Hd Hs) as Hb.
  assert (Hne' : l1 ++ g' :: l2 <> []) by (destruct l1; discriminate).
  pose proof (run_dcf_body_with_growth p Hne' Hw Hd Hs) as Hb'.
  cbv zeta in Hb, Hb'. fold p' in Hb'.
  rewrite Hgs in Hb. rewrite Hgs in Hpos.
  destruct (@fcffs_from_growth p l1 l2 g g' (p_revenue p) Hk Hrev Hpos Hg) as [Hle Hlast].
  set (fs := fcffs_from p (p_revenue p) (l1 ++ g :: l2)) in *.
  set (fs' := fcffs_from p (p_revenue p) (l1 ++ g' :: l2)) in *.
  assert (Hlen : length fs' = length fs) by (symmetry; eapply Forall2_length_Q; eauto).
  rewrite Hlen in Hb'.
  assert (Hev :
    discounted (p_wacc p) 0 fs 0
    + last fs 0 * (1 + p_terminal_growth p) / (p_wacc p - p_terminal_growth p)
      / py_pow (1 + p_wacc p) (length fs)
    < discounted (p_wacc p) 0 fs' 0
    + last fs' 0 * (1 + p_terminal_growth p) / (p_wacc p - p_terminal_growth p)
      / py_pow (1 + p_wacc p) (length fs)).
  { pose proof (@discounted_le _ _ _ 0%nat _ _ Hw Hle (Qle_refl 0)) as HD.
    pose proof (py_pow_pos (length fs) Hw) as HP.
    assert (HA : 0 < / (p_wacc p - p_terminal_growth p))
      by (apply Qinv_lt_0_compat; lra).
    assert (HB : 0 < / py_pow (1 + p_wacc p) (length fs))
      by now apply Qinv_lt_0_compat.
    unfold Qdiv.
    set (A := / (p_wacc p - p_terminal_growth p)) in *.
    set (B := / py_pow (1 + p_wacc p) (length fs)) in *.
    set (T := 1 + p_terminal_growth p) in *.
    assert (Hc : 0 < T * A * B) by (repeat apply Qmult_lt_0_compat; assumption).
    assert (E : forall L, L * T * A * B == L * (T * A * B)) by (intros; ring).
    rewrite !E. nra. }
  eexists; eexists; eexists; eexists.
  split; [exact Hb |]. split; [exact Hb' |].
  unfold run_dcf. rewrite Hb, Hb'. cbn [bind].
  split; [reflexivity |]. split; [reflexivity |].
  cbn [d_ev enterprise_value].
  split; [exact Hev |]. split; [reflexivity |]. split; [reflexivity |].
  apply Qround_le. now apply Qlt_le_weak.
Qed.

End ExactProjection.

(** ** Raising a growth rate *)

(** C9, as the code has it.  Under the preconditions and with [shares]
    nonzero, raising one rate of the growth path strictly raises the exact
    value of the enterprise value [ev] that [run_dcf] computes before it
    rounds, and [run_dcf] returns: this is exact arithmetic.  In binary64,
    which the code computes in, take two request bodies that differ in one
    growth rate, whose exact values meet the preconditions, and on which
    [run_dcf] reaches its [return]: whenever the [ev] of both carries no
    rounding error, that is, equals the [ev] of exact arithmetic, [ev] is
    strictly raised.  Nothing is said of two evaluations that do carry
    one, nor of the values returned, which are [round(ev, 2)]. *)
Theorem run_dcf_growth_monotone :
  (forall (p : payload Q) (l1 l2 : list Q) (g g' : Q),
      p_growth p = l1 ++ g :: l2 ->
      (g < g')%Q ->
      dcf_preconditions p ->
      ~ (p_shares p == 0)%Q ->
      exists l l' r r',
        run_dcf_body p = Ok l
        /\ run_dcf_body (with_growth p (l1 ++ g' :: l2)) = Ok l'
        /\ run_dcf p = Ok r
        /\ run_dcf (with_growth p (l1 ++ g' :: l2)) = Ok r'
        /\ (d_ev l < d_ev l')%Q
        /\ enterprise_value r = Qround (d_ev l) 2
        /\ enterprise_value r' = Qround (d_ev l') 2
        /\ (enterprise_value r <= enterprise_value r')%Q)
  /\ (forall (b b' : payload float) (p : payload Q) (l1 l2 : list Q) (g g' : Q)
             (lb lb' : dcf_locals float) (e e' : Q),
         payload_value b = Some p ->
         payload_value b' = Some (with_growth p (l1 ++ g' :: l2)) ->
         p_growth p = l1 ++ g :: l2 ->
         (g < g')%Q ->
         dcf_preconditions p ->
         ~ (p_shares p == 0)%Q ->
         run_dcf_body b = Ok lb ->
         run_dcf_body b' = Ok lb' ->
         b64_value (d_ev lb) = Some e ->
         b64_value (d_ev lb') = Some e' ->
         exists l l' r r',
           run_dcf_body p = Ok l
           /\ run_dcf_body (with_growth p (l1 ++ g' :: l2)) = Ok l'
           /\ run_dcf b = Ok r
           /\ run_dcf b' = Ok r'
           /\ enterprise_value r = f_round (d_ev lb) 2
           /\ enterprise_value r' = f_round (d_ev lb') 2
           /\ ((e == d_ev l)%Q -> (e' == d_ev l')%Q -> (e < e')%Q)).
Proof.
  split.
  - exact (@run_dcf_growth_exact).
  - intros b b' p l1 l2 g g' lb lb' e e' _ _ Hgs Hg Hpre Hs Hlb Hlb' _ _.
    destruct (@run_dcf_growth_exact p l1 l2 g g' Hgs Hg Hpre Hs)
      as (l & l' & _ & _ & Hl & Hl' & _ & _ & Hev & _).
    exists l, l'. eexists. eexists.
    split; [exact Hl |]. split; [exact Hl' |].
    unfold run_dcf. rewrite Hlb, Hlb'. cbn [bind].
    split; [reflexivity |]. split; [reflexivity |].
    cbn [enterprise_value].
    split; [reflexivity |]. split; [reflexivity |].
    intros He He'. rewrite He, He'. exact Hev.
Qed.

(** ** The worked inputs, computed *)

Section SamplesComputed.
Local Open Scope string_scope.
Local Open Scope list_scope.

Example parse_sample_profit_loss :
  parse_table sample_soup "profit-loss" = Ok sample_pl.
Proof. vm_compute. reflexivity. Qed.

Example parse_sample_balance_sheet :
  parse_table sample_soup "balance-sheet" = Ok sample_bs.
Proof. vm_compute. reflexivity. Qed.

Example build_sample_inputs :
  build_dcf_inputs sample_pl sample_bs [] =
  Ok {| revenue := 2501 # 2; ebit_margin := 1999 # 10000; tax_rate := 1 # 4;
        capex_pct := 91 # 1250; nwc_pct := 0; net_debt := 250 |}%Q.
Proof. vm_compute. reflexivity. Qed.

Example build_empty_inputs :
  build_dcf_inputs (F := Q) [] [] [] =
  Ok {| revenue := 0; ebit_margin := 0; tax_rate := 1 # 4; capex_pct := 0;
        nwc_pct := 0; net_debt := 0 |}%Q.
Proof. vm_compute. reflexivity. Qed.

(** [float] skips spaces at both ends and no separator: a cell that reads
    [,] then U+001C then [5] is no number, while U+001C then [5], which
    [str.strip] trims first, is 5. *)
Example float_skips_spaces_only :
  Q_of_string " 12.5 " = Some (25 # 2)%Q
  /\ Q_of_string (String "028" "5") = None
  /\ b64_of_string (String "028" "5") = None
  /\ cell_value (F := Q) (cell "td" (String "," (String "028" "5"))) = 0%Q
  /\ cell_value (F := Q) (cell "td" (String "028" "5")) = 5%Q.
Proof. repeat split; vm_compute; reflexivity. Qed.

End SamplesComputed.

(** ** The single-period scenario *)

(** C1.  On revenue 1000, one period of 0% growth, margin 0.2, tax rate
    0.25, no capex and no working capital, wacc 0.10, terminal growth
    0.03, no debt and 100 shares, the forecast cash flow is 150, the
    terminal value is 150 * 1.03 / 0.07, and [run_dcf] returns 2142.86,
    2142.86 and 21.43: in exact arithmetic, and in binary64, where the
    terminal value is 2207.14 to 2 decimals. *)
Theorem run_dcf_single_period :
  (exists l r,
     run_dcf_body (single_period 0) = Ok l
     /\ run_dcf (single_period 0) = Ok r
     /\ Forall2 Qeq (d_fcffs l) [150]
     /\ d_tv l == 150 * 1.03 / 0.07
     /\ enterprise_value r == 2142.86
     /\ equity_value r == 2142.86
     /\ fair_value_per_share r == 21.43)
  /\ (exists l,
        run_dcf_body (single_period_b64 0) = Ok l
        /\ d_fcffs l = [150%float]
        /\ f_round (d_tv l) 2 = 2207.14%float
        /\ run_dcf (single_period_b64 0) =
           Ok {| enterprise_value := 2142.86%float;
                 equity_value := 2142.86%float;
                 fair_value_per_share := 21.43%float |}).
Proof.
  split.
  - eexists. eexists.
    split; [vm_compute; reflexivity |].
    split; [vm_compute; reflexivity |].
    cbn [d_fcffs d_tv enterprise_value equity_value fair_value_per_share].
    split; [repeat constructor; vm_compute; reflexivity |].
    repeat split; vm_compute; reflexivity.
  - eexists.
    split; [vm_compute; reflexivity |].
    cbn [d_fcffs d_tv].
    repeat split; vm_compute; reflexivity.
Qed.

(** C9 as stated fails.  Raising the growth rate of the single-period
    scenario from 0 to one billionth keeps every precondition and leaves
    the returned enterprise value at 2142.86, in exact arithmetic and in
    binary64 alike: the rise is lost in the rounding to 2 decimals.  In
    binary64 a rise of 1e-17 is lost even before that, [1 + 1e-17] being
    [1].  In binary64 a rise can lower the enterprise value: on revenue
    4900 with every precondition met, raising the growth rate from
    [rate_below] to [rate_above] lowers [ev] from 18987.765000000003 to
    18987.764999999996 and the value returned from 18987.77 to 18987.76.
    And with no shares, which the preconditions allow, [run_dcf] raises
    instead of returning an enterprise value. *)
Lemma run_dcf_growth_not_strict :
  dcf_preconditions (single_period 0)
  /\ dcf_preconditions (single_period (1 # 1000000000))
  /\ 0 < 1 # 1000000000
  /\ (exists r r',
        run_dcf (single_period 0) = Ok r
        /\ run_dcf (single_period (1 # 1000000000)) = Ok r'
        /\ ~ enterprise_value r < enterprise_value r')
  /\ run_dcf (single_period_b64 1e-9) = run_dcf (single_period_b64 0)
  /\ run_dcf_body (single_period_b64 1e-17) = run_dcf_body (single_period_b64 0)
  /\ (exists (p p' : payload Q) (g g' : Q) (lb lb' : dcf_locals float)
             (r r' : projection float),
        payload_value (half_cent_period rate_below) = Some p
        /\ payload_value (half_cent_period rate_above) = Some p'
        /\ p_growth p = [g]
        /\ p' = with_growth p [g']
        /\ g < g'
        /\ dcf_preconditions p
        /\ dcf_preconditions p'
        /\ ~ p_shares p == 0
        /\ run_dcf_body (half_cent_period rate_below) = Ok lb
        /\ run_dcf_body (half_cent_period rate_above) = Ok lb'
        /\ d_ev lb = 18987.765000000003%float
        /\ d_ev lb' = 18987.764999999996%float
        /\ f_gt (d_ev lb) (d_ev lb') = true
        /\ run_dcf (half_cent_period rate_below) = Ok r
        /\ run_dcf (half_cent_period rate_above) = Ok r'
        /\ enterprise_value r = 18987.77%float
        /\ enterprise_value r' = 18987.76%float
        /\ f_gt (enterprise_value r) (enterprise_value r') = true)
  /\ dcf_preconditions no_shares
  /\ run_dcf no_shares = Raise ZeroDivisionError.
Proof.
  assert (Hpre : forall g, 0 < 1 + g -> dcf_preconditions (single_period g)).
  { intros g Hg. unfold dcf_preconditions. cbn.
    repeat split; try reflexivity. constructor; [exact Hg | constructor]. }
  split; [apply Hpre; reflexivity |].
  split; [apply Hpre; reflexivity |].
  split; [reflexivity |].
  split.
  - eexists. eexists.
    split; [vm_compute; reflexivity |].
    split; [vm_compute; reflexivity |].
    cbn [enterprise_value]. intros Hlt. vm_compute in Hlt. discriminate.
  - split; [vm_compute; reflexivity |].
    split; [vm_compute; reflexivity |].
    split.
    + do 8 eexists.
      split; [vm_compute; reflexivity |].
      split; [vm_compute; reflexivity |].
      split; [reflexivity |].
      split; [reflexivity |].
      split; [reflexivity |].
      split.
      { unfold dcf_preconditions. cbn.
        repeat split; try reflexivity. constructor; [reflexivity | constructor]. }
      split.
      { unfold dcf_preconditions. cbn.
        repeat split; try reflexivity. constructor; [reflexivity | constructor]. }
      split; [intros Hs; vm_compute in Hs; discriminate |].
      split; [vm_compute; reflexivity |].
      split; [vm_compute; reflexivity |].
      cbn [d_ev].
      split; [reflexivity |]. split; [reflexivity |].
      split; [vm_compute; reflexivity |].
      split; [vm_compute; reflexivity |].
      split; [vm_compute; reflexivity |].
      cbn [enterprise_value].
      split; [vm_compute; reflexivity |]. split; [vm_compute; reflexivity |].
      vm_compute; reflexivity.
    + split; [| vm_compute; reflexivity].
      unfold dcf_preconditions. cbn.
      repeat split; try reflexivity. constructor; [reflexivity | constructor].
Qed.

(** ** The theorems at the worked inputs *)

Section Witnesses.
Local Open Scope string_scope.
Local Open Scope list_scope.

(** [latest_value] on an empty series, on one with ["TTM"] in the middle
    and on one without it. *)
Lemma latest_value_policy_witness :
  latest_value (F := Q) [] = Ok 0%Q
  /\ latest_value [("Mar 2023", 7); ("TTM", 5); ("Mar 2024", 9)]%Q = Ok 5%Q
  /\ latest_value ([("Mar 2023", 7)] ++ [("Mar 2024", 9)])%Q = Ok 9%Q.
Proof.
  destruct (latest_value_policy (F := Q)) as (Hempty & Httm & Hlast).
  split; [exact Hempty | split].
  - apply Httm.
    + repeat constructor; simpl; intuition discriminate.
    + simpl. auto.
  - apply Hlast. simpl. intuition discriminate.
Defined.

(** The four empty results on the sample page: no such section, a section
    without a table, a table of one row, a header row with one header
    cell. *)
Lemma parse_table_empty_witness :
  parse_table (F := Q) sample_soup "cash-flow" = Ok []
  /\ parse_table (F := Q) sample_soup "quarters" = Ok []
  /\ parse_table (F := Q) sample_soup "ratios" = Ok []
  /\ parse_table (F := Q) sample_soup "peers" = Ok [].
Proof.
  split; [| split; [| split]]; apply parse_table_empty.
  - left. reflexivity.
  - right. left. eexists. split; reflexivity.
  - right. right. left. eexists. eexists.
    split; [reflexivity | split; [reflexivity | vm_compute; lia]].
  - right. right. right. eexists. eexists. eexists. eexists.
    split; [reflexivity | split; [reflexivity | split; [reflexivity |]]].
    left. vm_compute. lia.
Defined.

(** A row shorter than the header and a row longer than the header. *)
Lemma parse_row_pairs_witness :
  parse_row (F := Q) ["Mar 2023"; "Mar 2024"; "TTM"] []
    (tr [cell "td" "Borrowings +"; cell "td" "300"; cell "td" "n/a"])
  = Ok [("Borrowings +", [("Mar 2023", 300); ("Mar 2024", 0)])]%Q
  /\ parse_row (F := Q) ["Mar 2023"] []
       (tr [cell "td" "Investments"; cell "td" "40"; cell "td" "50"])
     = Ok [("Investments", [("Mar 2023", 40)])]%Q.
Proof.
  split.
  - exact (proj1 (parse_row_pairs_up_to_shorter (F := Q)
             ["Mar 2023"; "Mar 2024"; "TTM"] []
             (tr [cell "td" "Borrowings +"; cell "td" "300"; cell "td" "n/a"])
             eq_refl)).
  - exact (proj1 (parse_row_pairs_up_to_shorter (F := Q)
             ["Mar 2023"] []
             (tr [cell "td" "Investments"; cell "td" "40"; cell "td" "50"])
             eq_refl)).
Defined.

(** Two value cells under one repeated label leave one entry, the second
    cell's. *)
Lemma parse_row_duplicate_labels_witness :
  parse_row (F := Q) repeated_labels [] sample_row
  = Ok [("Sales +", [("Mar 2024", 2)])]%Q
  /\ (length (dict_of_pairs (combine repeated_labels [1; 2]%Q)) < 2)%nat.
Proof.
  destruct (parse_row_duplicate_labels (F := Q) repeated_labels [] sample_row eq_refl)
    as (Hrow & _ & _ & _ & _ & Hlt).
  split; [exact Hrow |].
  apply Hlt. intros Hnd. inversion Hnd as [| ? ? Hnot _]. apply Hnot. simpl. auto.
Defined.

(** The single-period scenario with its growth rate raised from 0 to 1%
    in exact arithmetic; and in binary64 a period computed without
    rounding error, with its growth rate raised from 0 to 0.125: the
    enterprise value rises from 1728 to 1944. *)
Lemma run_dcf_growth_monotone_witness :
  (exists l l' r r',
     run_dcf_body (single_period 0) = Ok l
     /\ run_dcf_body (with_growth (single_period 0) ([] ++ (1 # 100) :: [])) = Ok l'
     /\ run_dcf (single_period 0) = Ok r
     /\ run_dcf (with_growth (single_period 0) ([] ++ (1 # 100) :: [])) = Ok r'
     /\ d_ev l < d_ev l'
     /\ enterprise_value r = Qround (d_ev l) 2
     /\ enterprise_value r' = Qround (d_ev l') 2
     /\ enterprise_value r <= enterprise_value r')
  /\ (exists lb lb',
        run_dcf_body (dyadic_period 0) = Ok lb
        /\ run_dcf_body (dyadic_period 0.125) = Ok lb'
        /\ b64_value (d_ev lb) = Some 1728
        /\ b64_value (d_ev lb') = Some 1944
        /\ 1728 < 1944).
Proof.
  destruct run_dcf_growth_monotone as [Hexact Hb64].
  split.
  - apply (Hexact (single_period 0) [] [] 0 (1 # 100)).
    + reflexivity.
    + reflexivity.
    + unfold dcf_preconditions. cbn.
      repeat split; try reflexivity. constructor; [reflexivity | constructor].
    + intros Hs. vm_compute in Hs. discriminate.
  - eexists. eexists.
    split; [vm_compute; reflexivity |].
    split; [vm_compute; reflexivity |].
    cbn [d_ev].
    split; [vm_compute; reflexivity |].
    split; [vm_compute; reflexivity |].
    destruct (Hb64 (dyadic_period 0) (dyadic_period 0.125)
                {| p_revenue := 1152; p_growth := [0]; p_ebit_margin := 1 # 4;
                   p_tax_rate := 1 # 4; p_capex_pct := 1 # 16;
                   p_nwc_pct := 1 # 32; p_wacc := 1 # 8;
                   p_terminal_growth := 1 # 16; p_net_debt := 0;
                   p_shares := 64 |}
                [] [] 0 (1 # 8)
                {| d_fcffs := [108%float]; d_tv := 1836%float; d_ev := 1728%float;
                   d_equity := 1728%float; d_fair_value := 27%float |}
                {| d_fcffs := [121.5%float]; d_tv := 2065.5%float;
                   d_ev := 1944%float; d_equity := 1944%float;
                   d_fair_value := 30.375%float |}
                1728 1944)
      as (l & l' & _ & _ & Hl & Hl' & _ & _ & _ & _ & Hlt).
    + vm_compute; reflexivity.
    + vm_compute; reflexivity.
    + reflexivity.
    + reflexivity.
    + unfold dcf_preconditions. cbn.
      repeat split; try reflexivity. constructor; [reflexivity | constructor].
    + intros Hs. vm_compute in Hs. discriminate.
    + vm_compute; reflexivity.
    + vm_compute; reflexivity.
    + vm_compute; reflexivity.
    + vm_compute; reflexivity.
    + vm_compute in Hl. injection Hl as <-.
      vm_compute in Hl'. injection Hl' as <-.
      apply Hlt; vm_compute; reflexivity.
Defined.

(** A cell with a thousands separator and a cell that is no number. *)
Lemma parse_cell_total_witness :
  parse_cell (F := Q) [] (cell "td" " 1,234.5 ") = Ok [2469 # 2]%Q
  /\ parse_cell (F := Q) [] (cell "td" "n/a") = Ok [0]%Q.
Proof.
  destruct (parse_cell_total (F := Q)) as (Hnum & Hbad & _).
  split.
  - apply (Hnum [] (cell "td" " 1,234.5 ") (2469 # 2)%Q). reflexivity.
  - apply (Hbad [] (cell "td" "n/a")). reflexivity.
Defined.

(** The sample page lists ["Depreciation"] twice; the second row's
    series is kept. *)
Lemma parse_table_last_wins_witness :
  exists data : @statement_table Q,
    parse_table sample_soup "profit-loss" = Ok data
    /\ dict_get data "Depreciation"
       = Some [("Mar 2023", 21); ("Mar 2024", 26); ("TTM", 31)]%Q.
Proof.
  destruct (parse_table_last_wins (F := Q) sample_soup "profit-loss")
    as (data & Hdata & _ & _ & Hlast).
  exists data. split; [exact Hdata |].
  apply (Hlast (firstn 5 (table_entries sample_soup "profit-loss"))
           "Depreciation" _ []).
  - vm_compute. reflexivity.
  - simpl. tauto.
Defined.

(** A profitable year and a year with a loss before tax. *)
Lemma tax_rate_policy_witness :
  (exists r,
     build_dcf_inputs sample_pl sample_bs [] = Ok r
     /\ tax_rate r = Qround ((200 - 150) / 200) 4)
  /\ (exists r,
        build_dcf_inputs sample_pl_loss sample_bs [] = Ok r
        /\ tax_rate r = Qround 0.25 4).
Proof.
  split.
  - destruct (tax_rate_policy sample_pl sample_bs [])
      as (l & r & _ & Hr & Hpbt & Hpat & Hpos & _ & Hround).
    exists r. split; [exact Hr |].
    assert (Epbt : l_pbt l = 200%Q)
      by (change (Ok 200%Q = Ok (l_pbt l)) in Hpbt; congruence).
    assert (Epat : l_pat l = 150%Q)
      by (change (Ok 150%Q = Ok (l_pat l)) in Hpat; congruence).
    rewrite Hround, Hpos, Epbt, Epat; [reflexivity |].
    rewrite Epbt. reflexivity.
  - destruct (tax_rate_policy sample_pl_loss sample_bs [])
      as (l & r & _ & Hr & Hpbt & _ & _ & Hneg & Hround).
    exists r. split; [exact Hr |].
    assert (Epbt : l_pbt l = (- (5))%Q)
      by (change (Ok (- (5))%Q = Ok (l_pbt l)) in Hpbt; congruence).
    rewrite Hround, Hneg; [reflexivity |].
    rewrite Epbt. reflexivity.
Defined.

(** Two periods of fixed assets: capex is their difference plus
    depreciation. *)
Lemma capex_policy_witness :
  exists r,
    build_dcf_inputs sample_pl sample_bs [] = Ok r
    /\ capex_pct r = Qround ((560 - 500 + 31) / (2501 # 2)) 4.
Proof.
  destruct (capex_policy sample_pl sample_bs [])
    as (l & r & _ & Hr & Hrev & Hdep & Hcapex & _ & Hpct & _ & Hround).
  exists r. split; [exact Hr |].
  assert (Erev : l_revenue l = (2501 # 2)%Q)
    by (change (Ok (2501 # 2)%Q = Ok (l_revenue l)) in Hrev; congruence).
  assert (Edep : l_depreciation l = 31%Q)
    by (change (Ok 31%Q = Ok (l_depreciation l)) in Hdep; congruence).
  assert (Ecapex : l_capex l = (560 - 500 + 31)%Q).
  { rewrite <- Edep.
    apply (Hcapex [] "Mar 2023" 500%Q "Mar 2024" 560%Q); [reflexivity |].
    repeat constructor; simpl; intuition discriminate. }
  rewrite Hround, Hpct, Ecapex, Erev; [reflexivity |].
  rewrite Erev. reflexivity.
Defined.

End Witnesses.

(** * Further properties *)

(** ** Trimming *)

Lemma lstrip_idempotent (s : string) : lstrip (lstrip s) = lstrip s.
Proof.
  induction s as [| c s IH]; simpl; [reflexivity |].
  destruct (isspace c) eqn:E; [exact IH |].
  simpl. now rewrite E.
Qed.

Lemma rstrip_idempotent (s : string) : rstrip (rstrip s) = rstrip s.
Proof.
  induction s as [| c s IH]; simpl; [reflexivity |].
  destruct (rstrip s) as [| c' r] eqn:Er.
  - destruct (isspace c) eqn:E; simpl; [reflexivity | now rewrite E].
  - cbn [rstrip] in IH |- *. fold (rstrip (String c' r)).
    change (rstrip (String c (String c' r)))
      with (match rstrip (String c' r) with
            | EmptyString => if isspace c then EmptyString else String c EmptyString
            | String _ _ as r' => String c r'
            end).
    now rewrite IH.
Qed.

Lemma rstrip_fixed_tail (c : ascii) (s : string) :
  rstrip (String c s) = String c s -> rstrip s = s.
Proof.
  simpl. destruct (rstrip s) as [| c' r] eqn:Er.
  - destruct (isspace c); [discriminate | congruence].
  - congruence.
Qed.

Lemma rstrip_lstrip_fixed (s : string) :
  rstrip s = s -> rstrip (lstrip s) = lstrip s.
Proof.
  induction s as [| c s IH]; intros Hfix; [reflexivity |].
  simpl lstrip. destruct (isspace c).
  - apply IH. eapply rstrip_fixed_tail; eassumption.
  - exact Hfix.
Qed.

(** Trimming a trimmed string changes nothing. *)
Lemma strip_idempotent (s : string) : strip (strip s) = strip s.
Proof.
  unfold strip.
  rewrite (@rstrip_lstrip_fixed (rstrip s) (rstrip_idempotent s)).
  apply lstrip_idempotent.
Qed.

(** ** Sequences and dictionaries *)

Lemma NoDup_firstn {A : Type} (n : nat) : forall l : list A,
  NoDup l -> NoDup (firstn n l).
Proof.
  induction n as [| n IH]; intros [| x l] Hnd; simpl; try constructor.
  - inversion Hnd as [| ? ? Hnot Hrest]; subst.
    intros Hin. apply Hnot. revert Hin. clear.
    revert l. induction n as [| n IHn]; intros [| y l]; simpl; try tauto.
    intros [-> | Hin]; [now left | right; now apply IHn].
  - inversion Hnd; subst. now apply IH.
Qed.

Lemma In_firstn {A : Type} (n : nat) : forall (l : list A) (x : A),
  In x (firstn n l) -> In x l.
Proof.
  induction n as [| n IH]; intros [| y l] x; simpl; try tauto.
  intros [-> | Hin]; [now left | right; now apply IH].
Qed.

Lemma dict_get_In_values {V : Type} (d : dict V) (k : string) (v : V) :
  dict_get d k = Some v -> In v (values d).
Proof.
  induction d as [| [k0 v0] d IH]; simpl; [discriminate |].
  destruct (String.eqb k0 k); [intros [= ->]; now left | auto].
Qed.

(** ** More on the statement extractor *)

Section ExtractorMore.
Context {F : Type} `{PyFloat F}.
Local Open Scope string_scope.
Local Open Scope list_scope.

Lemma length_row_entry (headers : list string) (row : node) :
  (length (row_entry (F := F) headers row) <= 1)%nat.
Proof.
  unfold row_entry.
  destruct (find_all ["td"; "th"] [] row) as [| c0 [| c1 cs]]; simpl; lia.
Qed.

Lemma length_flat_map_row_entry (headers : list string) (rows : list node) :
  (length (flat_map (row_entry (F := F) headers) rows) <= length rows)%nat.
Proof.
  induction rows as [| row rows IH]; simpl; [lia |].
  rewrite length_app. pose proof (length_row_entry headers row). lia.
Qed.

(** The entries of a table, read off the result of [parse_table]. *)
Lemma parse_table_entry_inv (soup : node) (section_id : string)
  (data : statement_table) (k : string) (s : series) :
  parse_table soup section_id = Ok data ->
  dict_get data k = Some s ->
  exists row c0 c1 cs,
    In row (skipn 1 (table_rows soup section_id))
    /\ find_all ["td"; "th"] [] row = c0 :: c1 :: cs
    /\ k = strip (text c0)
    /\ s = dict_of_pairs
             (combine (period_labels (table_rows soup section_id))
                      (map cell_value (c1 :: cs))).
Proof.
  rewrite parse_table_entries. intros [= <-] Hget.
  rewrite dict_of_pairs_update in Hget.
  apply dict_get_update_inv in Hget as [Hget | Hin]; [discriminate |].
  unfold table_entries in Hin.
  destruct (_ || _)%bool; [contradiction |].
  apply in_flat_map in Hin as (row & Hrow & Hin).
  unfold row_entry in Hin.
  destruct (find_all ["td"; "th"] [] row) as [| c0 [| c1 cs]] eqn:Ec;
    try contradiction.
  destruct Hin as [[= <- <-] | []].
  exists row, c0, c1, cs. auto.
Qed.

Lemma keys_zip_incl (hs : list string) (vals : list F) (p : string) :
  In p (keys (dict_of_pairs (combine hs vals))) -> In p hs.
Proof.
  intros Hp. apply (In_keys_dict_update _ []) in Hp.
  rewrite map_fst_combine in Hp. destruct Hp as [[] | Hp].
  eapply In_firstn; eassumption.
Qed.

(** [latest_value] never raises, and on a series that is not empty it
    returns one of the values of the series. *)
Theorem latest_value_from_series (row : series) :
  exists v : F,
    latest_value row = Ok v
    /\ (row <> [] -> In v (values row)).
Proof.
  destruct row as [| [k x] row].
  - exists (f_of_Q 0). split; [reflexivity | congruence].
  - unfold latest_value, dict_contains, dict_getitem.
    destruct (dict_get ((k, x) :: row) "TTM") as [v |] eqn:E.
    + exists v. split; [reflexivity |]. intros _.
      now apply dict_get_In_values with (k := "TTM").
    + destruct (exists_last (l := values ((k, x) :: row))) as (l' & v & Hv);
        [discriminate |].
      exists v. rewrite Hv. split; [apply getitem_neg_last |].
      intros _. apply in_or_app. right. now left.
Qed.

(** In an extracted table, every series has pairwise distinct period
    labels, all of them period labels of the header row, and no more
    entries than the header has period labels; and the table has no more
    entries than the table has rows after the header. *)
Theorem parse_table_series_bounds (soup : node) (section_id : string)
  (data : statement_table) (k : string) (s : series) :
  parse_table soup section_id = Ok data ->
  dict_get data k = Some s ->
  NoDup (keys s)
  /\ incl (keys s) (period_labels (table_rows soup section_id))
  /\ (length s <= length (period_labels (table_rows soup section_id)))%nat
  /\ (length data <= length (table_rows soup section_id) - 1)%nat.
Proof.
  intros Hparse Hget.
  destruct (@parse_table_entry_inv soup section_id data k s Hparse Hget)
    as (row & c0 & c1 & cs & _ & _ & _ & ->).
  set (hs := period_labels (table_rows soup section_id)).
  set (vals := map cell_value (c1 :: cs)).
  split; [| split; [| split]].
  - apply (NoDup_keys_dict_update _ []). constructor.
  - intros p Hp. eapply keys_zip_incl; eassumption.
  - pose proof (length_dict_of_pairs_le (combine hs vals)) as Hle.
    rewrite length_combine in Hle. lia.
  - rewrite parse_table_entries in Hparse. injection Hparse as <-.
    pose proof (length_dict_of_pairs_le (table_entries soup section_id)) as Hle.
    unfold table_entries in Hle |- *.
    destruct (_ || _)%bool; [simpl; lia |].
    pose proof (length_flat_map_row_entry
                  (period_labels (table_rows soup section_id))
                  (skipn 1 (table_rows soup section_id))) as Hfm.
    rewrite length_skipn in Hfm. lia.
Qed.

(** In an extracted table, the line-item labels and the period labels
    neither start nor end with whitespace: trimming one again gives it
    back. *)
Theorem parse_table_labels_trimmed (soup : node) (section_id : string)
  (data : statement_table) (k : string) (s : series) :
  parse_table soup section_id = Ok data ->
  dict_get data k = Some s ->
  strip k = k /\ (forall p, In p (keys s) -> strip p = p).
Proof.
  intros Hparse Hget.
  destruct (@parse_table_entry_inv soup section_id data k s Hparse Hget)
    as (row & c0 & c1 & cs & _ & _ & -> & ->).
  split; [apply strip_idempotent |].
  intros p Hp. apply keys_zip_incl in Hp. unfold period_labels in Hp.
  assert (Hin : In p (map (fun th => strip (text th))
                        (header_cells (table_rows soup section_id)))).
  { revert Hp. generalize (map (fun th => strip (text th))
                             (header_cells (table_rows soup section_id))).
    intros [| x l]; simpl; auto. }
  apply in_map_iff in Hin as (th & <- & _). apply strip_idempotent.
Qed.

(** On a table whose period labels are pairwise distinct and whose data
    rows bear pairwise distinct labels, the extracted table holds, under
    the label of a row and the label of a column, the value of the cell of
    that row in that column. *)
Theorem parse_table_cell_lookup (soup : node) (section_id : string)
  (data : statement_table) (row c0 c : node) (cs : list node) (j : nat)
  (h : string) :
  parse_table soup section_id = Ok data ->
  (2 <= length (table_rows soup section_id))%nat ->
  (2 <= length (header_cells (table_rows soup section_id)))%nat ->
  NoDup (period_labels (table_rows soup section_id)) ->
  NoDup (map fst (table_entries (F := F) soup section_id)) ->
  In row (skipn 1 (table_rows soup section_id)) ->
  find_all ["td"; "th"] [] row = c0 :: cs ->
  nth_error (period_labels (table_rows soup section_id)) j = Some h ->
  nth_error cs j = Some c ->
  exists s,
    dict_get data (strip (text c0)) = Some s
    /\ dict_get s h = Some (cell_value c).
Proof.
  intros Hparse Hrows Hhead Hnd Hlabels Hrow Hcells Hh Hc.
  set (hs := period_labels (table_rows soup section_id)) in *.
  rewrite parse_table_entries in Hparse. injection Hparse as <-.
  exists (dict_of_pairs (combine hs (map cell_value cs))).
  assert (Hentries : dict_of_pairs (table_entries (F := F) soup section_id)
                     = table_entries soup section_id).
  { rewrite dict_of_pairs_update. apply dict_update_NoDup. exact Hlabels. }
  assert (Hseries : dict_of_pairs (combine hs (map (cell_value (F := F)) cs))
                    = combine hs (map cell_value cs)).
  { rewrite dict_of_pairs_update. apply dict_update_NoDup. simpl.
    rewrite map_fst_combine. now apply NoDup_firstn. }
  split.
  - rewrite Hentries. apply dict_get_In; [exact Hlabels |].
    unfold table_entries. fold hs.
    apply Nat.ltb_ge in Hrows. apply Nat.ltb_ge in Hhead.
    rewrite Hrows, Hhead. cbn [orb].
    apply in_flat_map. exists row. split; [exact Hrow |].
    unfold row_entry. rewrite Hcells.
    destruct cs as [| c1 cs']; [destruct j; discriminate |]. now left.
  - rewrite Hseries. apply dict_get_In.
    + unfold keys. rewrite map_fst_combine. now apply NoDup_firstn.
    + eapply nth_error_In. apply nth_error_combine; [exact Hh |].
      now apply map_nth_error.
Qed.

End ExtractorMore.

(** ** More on input derivation *)

Section InputsMore.
Context {F : Type} `{PyFloat F}.
Local Open Scope py_scope.
Local Open Scope string_scope.
Local Open Scope list_scope.

(** The rest of the local variables of [build_dcf_inputs] at its
    [return]: operating profit, margin, working capital and debt. *)
Lemma build_dcf_body_rest (pl bs cf : @statement_table F) :
  let oa := dict_get_default bs "Other Assets +" [] in
  let ol := dict_get_default bs "Other Liabilities +" [] in
  exists l bor cash,
    build_dcf_body pl bs cf = Ok l
    /\ latest_value (dict_get_default pl "Sales +" []) = Ok (l_revenue l)
    /\ latest_value (dict_get_default pl "Operating Profit" []) = Ok (l_ebit l)
    /\ latest_value (dict_get_default bs "Borrowings +" []) = Ok bor
    /\ latest_value (dict_get_default bs "Investments" []) = Ok cash
    /\ l_net_debt l = bor - cash
    /\ (f_is_zero (l_revenue l) = false ->
        l_ebit_margin l = f_div (l_ebit l) (l_revenue l))
    /\ (f_is_zero (l_revenue l) = true ->
        l_ebit_margin l = f_of_Q 0 /\ l_capex_pct l = f_of_Q 0
        /\ l_nwc_pct l = f_of_Q 0)
    /\ (forall d k2 a2 k1 a1 d' k2' b2 k1' b1,
          oa = d ++ [(k2, a2); (k1, a1)] -> ol = d' ++ [(k2', b2); (k1', b1)] ->
          NoDup (keys oa) -> NoDup (keys ol) ->
          f_is_zero (l_revenue l) = false ->
          l_nwc_pct l = f_div ((a1 - a2) - (b1 - b2)) (l_revenue l))
    /\ ((length oa < 2)%nat \/ (length ol < 2)%nat -> l_nwc_pct l = f_of_Q 0).
Proof.
  intros oa ol.
  destruct (latest_value_total (dict_get_default pl "Sales +" [])) as [rev Hrev].
  destruct (latest_value_total (dict_get_default pl "Operating Profit" [])) as [ebit Hebit].
  destruct (latest_value_total (dict_get_default pl "Depreciation" [])) as [dep Hdep].
  destruct (latest_value_total (dict_get_default pl "Profit before tax" [])) as [pbt Hpbt].
  destruct (latest_value_total (dict_get_default pl "Net Profit +" [])) as [pat Hpat].
  destruct (latest_value_total (dict_get_default bs "Borrowings +" [])) as [bor Hbor].
  destruct (latest_value_total (dict_get_default bs "Investments" [])) as [cash Hcash].
  assert (Htax : exists t,
    (if f_gt pbt (f_of_Q 0) then py_div (pbt - pat) pbt else Ok (f_of_Q 0.25)) = Ok t).
  { destruct (f_gt pbt (f_of_Q 0)) eqn:E; [| now eexists].
    unfold py_div. rewrite (f_gt_zero_nonzero _ E). now eexists. }
  destruct Htax as (t & Et).
  set (fa := dict_get_default bs "Fixed Assets +" []).
  assert (Hcapex : exists c,
    (if (2 <=? length (keys fa))%nat then
       y1 <- getitem_neg (keys fa) 1 ;;
       a <- dict_getitem fa y1 ;;
       y2 <- getitem_neg (keys fa) 2 ;;
       b <- dict_getitem fa y2 ;;
       Ok (a - b + dep)
     else Ok dep) = Ok c).
  { unfold keys at 1. rewrite length_map.
    destruct (Nat.leb_spec 2 (length fa)) as [Hge | Hlt]; [| now eexists].
    destruct (two_last_entries fa Hge) as (d0 & k2 & v2 & k1 & v1 & Efa).
    destruct (@last_two_lookup _ _ _ _ _ _ _ Efa) as (a & b & E1 & Ea & E2 & Eb & _).
    rewrite E1. cbn [bind]. rewrite Ea. cbn [bind]. rewrite E2. cbn [bind].
    rewrite Eb. cbn [bind]. now eexists. }
  destruct Hcapex as (c & Ec).
  destruct (ratio_or_zero c rev) as (cp & Ecp & _ & Hcp0).
  destruct (ratio_or_zero ebit rev) as (em & Eem & Hem1 & Hem0).
  assert (Hnwc : exists n,
    (if ((2 <=? length (keys oa)) && (2 <=? length (keys ol)))%nat then
       oy1 <- getitem_neg (keys oa) 1 ;;
       oa1 <- dict_getitem oa oy1 ;;
       oy2 <- getitem_neg (keys oa) 2 ;;
       oa2 <- dict_getitem oa oy2 ;;
       ly1 <- getitem_neg (keys ol) 1 ;;
       ol1 <- dict_getitem ol ly1 ;;
       ly2 <- getitem_neg (keys ol) 2 ;;
       ol2 <- dict_getitem ol ly2 ;;
       (if truthy rev then py_div ((oa1 - oa2) - (ol1 - ol2)) rev
        else Ok (f_of_Q 0))
     else Ok (f_of_Q 0)) = Ok n
    /\ (f_is_zero rev = true -> n = f_of_Q 0)
    /\ (forall d k2 a2 k1 a1 d' k2' b2 k1' b1,
          oa = d ++ [(k2, a2); (k1, a1)] -> ol = d' ++ [(k2', b2); (k1', b1)] ->
          NoDup (keys oa) -> NoDup (keys ol) ->
          f_is_zero rev = false ->
          n = f_div ((a1 - a2) - (b1 - b2)) rev)
    /\ ((length oa < 2)%nat \/ (length ol < 2)%nat -> n = f_of_Q 0)).
  { unfold keys at 1 2. rewrite !length_map.
    assert (Hshort : forall d k2 a2 k1 a1 (x : dict F),
              x = d ++ [(k2, a2); (k1, a1)] -> (length x < 2)%nat -> False).
    { intros d k2 a2 k1 a1 x -> Hlt. rewrite length_app in Hlt. simpl in Hlt. lia. }
    destruct (Nat.leb_spec 2 (length oa)) as [Hoa | Hoa].
    2:{ exists (f_of_Q 0). cbn [andb]. repeat split; auto.
        intros; exfalso; eapply Hshort with (x := oa); eassumption. }
    destruct (Nat.leb_spec 2 (length ol)) as [Hol | Hol].
    2:{ exists (f_of_Q 0). cbn [andb]. repeat split; auto.
        intros; exfalso; eapply Hshort with (x := ol); eassumption. }
    destruct (two_last_entries oa Hoa) as (d0 & k2 & v2 & k1 & v1 & Eoa).
    destruct (@last_two_lookup _ _ _ _ _ _ _ Eoa) as (a & b & E1 & Ea & E2 & Eb & Hab).
    destruct (two_last_entries ol Hol) as (d0' & k2' & v2' & k1' & v1' & Eol).
    destruct (@last_two_lookup _ _ _ _ _ _ _ Eol) as (a' & b' & E1' & Ea' & E2' & Eb' & Hab').
    cbn [andb].
    rewrite E1. cbn [bind]. rewrite Ea. cbn [bind]. rewrite E2. cbn [bind].
    rewrite Eb. cbn [bind]. rewrite E1'. cbn [bind]. rewrite Ea'. cbn [bind].
    rewrite E2'. cbn [bind]. rewrite Eb'. cbn [bind].
    destruct (ratio_or_zero ((a - b) - (a' - b')) rev) as (n & En & Hn1 & Hn0).
    exists n. split; [exact En |]. split; [exact Hn0 |]. split; [| intros [? | ?]; lia].
    intros d k2x a2x k1x a1x dy k2y b2y k1y b1y Ex Ey Hndx Hndy Hrevnz.
    destruct (Hab Hndx) as [-> ->]. destruct (Hab' Hndy) as [-> ->].
    rewrite Eoa in Ex. rewrite Eol in Ey.
    assert (Hinj : forall (u u' : list (string * F)) p q p' q',
              u ++ [p; q] = u' ++ [p'; q'] -> p = p' /\ q = q').
    { intros u u' p q p' q' E.
      change [p; q] with ([p] ++ [q]) in E. change [p'; q'] with ([p'] ++ [q']) in E.
      rewrite !app_assoc in E. apply app_inj_tail in E as [E ->].
      apply app_inj_tail in E as [_ ->]. auto. }
    destruct (Hinj _ _ _ _ _ _ Ex) as [Ex2 Ex1].
    destruct (Hinj _ _ _ _ _ _ Ey) as [Ey2 Ey1].
    injection Ex2 as _ <-. injection Ex1 as _ <-.
    injection Ey2 as _ <-. injection Ey1 as _ <-.
    now apply Hn1. }
  destruct Hnwc as (n & En & Hn0 & Hn2 & Hn3).
  eexists. exists bor, cash. split.
  - unfold build_dcf_body.
    rewrite Hrev, Hebit, Hdep, Hpbt, Hpat, Hbor, Hcash. cbn [bind].
    rewrite Et. cbn [bind]. fold fa. rewrite Ec. cbn [bind].
    rewrite Ecp. cbn [bind]. fold oa ol. rewrite En. cbn [bind].
    rewrite Eem. cbn [bind]. reflexivity.
  - cbn [l_revenue l_ebit l_net_debt l_ebit_margin l_capex_pct l_nwc_pct].
    repeat split; auto.
Qed.

(** [build_dcf_inputs] returns on every three tables: no lookup of a
    missing line item or period, no index out of range and no division by
    zero stops it. *)
Theorem build_dcf_inputs_never_raises (pl bs cf : @statement_table F) :
  exists r, build_dcf_inputs pl bs cf = Ok r.
Proof.
  destruct (build_dcf_body_rest pl bs cf) as (l & _ & _ & El & _).
  unfold build_dcf_inputs. rewrite El. cbn [bind]. now eexists.
Qed.

(** [revenue] and [net_debt] are returned as they are read, unrounded:
    the latest ["Sales +"], and the latest ["Borrowings +"] minus the
    latest ["Investments"]; [ebit_margin] is the latest
    ["Operating Profit"] over revenue, rounded to 4 decimals. *)
Theorem revenue_and_net_debt_unrounded (pl bs cf : @statement_table F) :
  exists r rev ebit bor cash,
    build_dcf_inputs pl bs cf = Ok r
    /\ latest_value (dict_get_default pl "Sales +" []) = Ok rev
    /\ latest_value (dict_get_default pl "Operating Profit" []) = Ok ebit
    /\ latest_value (dict_get_default bs "Borrowings +" []) = Ok bor
    /\ latest_value (dict_get_default bs "Investments" []) = Ok cash
    /\ revenue r = rev
    /\ net_debt r = bor - cash
    /\ (f_is_zero rev = false -> ebit_margin r = f_round (f_div ebit rev) 4).
Proof.
  destruct (build_dcf_body_rest pl bs cf)
    as (l & bor & cash & El & Hrev & Hebit & Hbor & Hcash & Hnd & Hem & _).
  eexists. exists (l_revenue l), (l_ebit l), bor, cash.
  unfold build_dcf_inputs. rewrite El. cbn [bind].
  cbn [revenue net_debt ebit_margin].
  split; [reflexivity |]. repeat split; auto.
  intros Hnz. now rewrite Hem.
Qed.

(** With a revenue of zero no ratio is divided: [ebit_margin],
    [capex_pct] and [nwc_pct] are all [0] (rounded to 4 decimals), and
    nothing is raised. *)
Theorem zero_revenue_ratios (pl bs cf : @statement_table F) (rev : F) :
  latest_value (dict_get_default pl "Sales +" []) = Ok rev ->
  f_is_zero rev = true ->
  exists r,
    build_dcf_inputs pl bs cf = Ok r
    /\ ebit_margin r = f_round (f_of_Q 0) 4
    /\ capex_pct r = f_round (f_of_Q 0) 4
    /\ nwc_pct r = f_round (f_of_Q 0) 4.
Proof.
  intros Hrev Hz.
  destruct (build_dcf_body_rest pl bs cf)
    as (l & bor & cash & El & Hrev' & _ & _ & _ & _ & _ & Hzero & _).
  assert (E : l_revenue l = rev) by congruence.
  rewrite E in Hzero. destruct (Hzero Hz) as (Hem & Hcp & Hnw).
  eexists. unfold build_dcf_inputs. rewrite El. cbn [bind].
  cbn [ebit_margin capex_pct nwc_pct].
  split; [reflexivity |]. now rewrite Hem, Hcp, Hnw.
Qed.

(** [nwc_pct]: when ["Other Assets +"] and ["Other Liabilities +"] both
    have two periods or more and revenue is not zero, it is the rise of
    other assets over the last period minus the rise of other liabilities,
    over revenue; when either has fewer than two periods it is [0]; it is
    returned rounded to 4 decimals. *)
Theorem nwc_pct_policy (pl bs cf : @statement_table F) :
  let oa := dict_get_default bs "Other Assets +" [] in
  let ol := dict_get_default bs "Other Liabilities +" [] in
  exists l r,
    build_dcf_body pl bs cf = Ok l
    /\ build_dcf_inputs pl bs cf = Ok r
    /\ latest_value (dict_get_default pl "Sales +" []) = Ok (l_revenue l)
    /\ (forall d k2 a2 k1 a1 d' k2' b2 k1' b1,
          oa = d ++ [(k2, a2); (k1, a1)] -> ol = d' ++ [(k2', b2); (k1', b1)] ->
          NoDup (keys oa) -> NoDup (keys ol) ->
          f_is_zero (l_revenue l) = false ->
          l_nwc_pct l = f_div ((a1 - a2) - (b1 - b2)) (l_revenue l))
    /\ ((length oa < 2)%nat \/ (length ol < 2)%nat -> l_nwc_pct l = f_of_Q 0)
    /\ nwc_pct r = f_round (l_nwc_pct l) 4.
Proof.
  intros oa ol.
  destruct (build_dcf_body_rest pl bs cf)
    as (l & bor & cash & El & Hrev & _ & _ & _ & _ & _ & _ & Hn2 & Hn3).
  exists l. eexists. unfold build_dcf_inputs. rewrite El. cbn [bind].
  repeat split; auto.
Qed.

(** Line items that are missing from the tables count as [0]: without
    the five lines read from the profit and loss table and the five read
    from the balance sheet, revenue and net debt are [0], the tax rate is
    the fallback [0.25] and every ratio is [0], in any arithmetic where
    [0] is zero and not above itself. *)
Theorem missing_line_items_default (pl bs cf : @statement_table F) :
  f_is_zero (f_of_Q 0) = true ->
  f_gt (f_of_Q 0) (f_of_Q 0) = false ->
  (forall k,
     In k ["Sales +"; "Operating Profit"; "Depreciation"; "Profit before tax";
           "Net Profit +"] -> dict_get pl k = None) ->
  (forall k,
     In k ["Fixed Assets +"; "Other Assets +"; "Other Liabilities +";
           "Borrowings +"; "Investments"] -> dict_get bs k = None) ->
  build_dcf_inputs pl bs cf =
  Ok {| revenue := f_of_Q 0;
        ebit_margin := f_round (f_of_Q 0) 4;
        tax_rate := f_round (f_of_Q 0.25) 4;
        capex_pct := f_round (f_of_Q 0) 4;
        nwc_pct := f_round (f_of_Q 0) 4;
        net_debt := f_of_Q 0 - f_of_Q 0 |}.
Proof.
  intros Hzero Hgt Hpl Hbs.
  unfold build_dcf_inputs, build_dcf_body, dict_get_default.
  rewrite !Hpl by (simpl; tauto). rewrite !Hbs by (simpl; tauto).
  cbn [latest_value bind keys map length Nat.leb andb].
  rewrite Hgt. cbn [bind]. unfold truthy. rewrite Hzero. cbn [negb bind].
  reflexivity.
Qed.

End InputsMore.

(** ** More on projection and discounting *)

Section ProjectionMore.
Context {F : Type} `{PyFloat F}.

Lemma forecast_loop_length (p : payload F) (gs : list F) : forall st,
  length (snd (fold_left (forecast_step p) gs st)) = (length (snd st) + length gs)%nat.
Proof.
  induction gs as [| g gs IH]; intros st; simpl.
  - lia.
  - rewrite IH. unfold forecast_step. cbn [snd]. rewrite length_app. simpl. lia.
Qed.

Lemma getitem_neg_1_nil {A : Type} : getitem_neg (@nil A) 1 = Raise IndexError.
Proof. reflexivity. Qed.

Lemma getitem_neg_1_ok {A : Type} (l : list A) :
  l <> [] -> exists x, getitem_neg l 1 = Ok x.
Proof.
  intros Hne. destruct (exists_last Hne) as (l' & x & ->).
  exists x. apply getitem_neg_last.
Qed.

(** What [run_dcf] raises, in any arithmetic: [IndexError] on an empty
    growth path, before anything else is looked at; [ZeroDivisionError]
    on a growth path that is not empty when [wacc - terminal_growth] is
    zero; and it does not return when [shares] is zero. *)
Theorem run_dcf_raises (p : payload F) :
  (p_growth p = [] -> run_dcf p = Raise IndexError)
  /\ (p_growth p <> [] ->
      f_is_zero (f_sub (p_wacc p) (p_terminal_growth p)) = true ->
      run_dcf p = Raise ZeroDivisionError)
  /\ (forall r, run_dcf p = Ok r -> f_is_zero (p_shares p) = false).
Proof.
  split; [| split].
  - intros Hg. unfold run_dcf, run_dcf_body. rewrite Hg. reflexivity.
  - intros Hg Hz. unfold run_dcf, run_dcf_body.
    destruct (@getitem_neg_1_ok _
                (snd (fold_left (forecast_step p) (p_growth p) (p_revenue p, []))))
      as [x Hx].
    { intros E. apply (f_equal (@length F)) in E.
      rewrite forecast_loop_length in E. simpl in E.
      destruct (p_growth p); [congruence | discriminate]. }
    rewrite Hx. cbn [bind]. unfold py_div at 1. rewrite Hz. reflexivity.
  - intros r. unfold run_dcf, run_dcf_body.
    destruct (getitem_neg _ 1) as [x |]; cbn [bind]; [| discriminate].
    destruct (py_div (f_mul x _) _) as [tv |]; cbn [bind]; [| discriminate].
    destruct (for_each _ _ _) as [ev |]; cbn [bind]; [| discriminate].
    destruct (py_div tv _) as [d |]; cbn [bind]; [| discriminate].
    unfold py_div. destruct (f_is_zero (p_shares p)); [discriminate | reflexivity].
Qed.

End ProjectionMore.

(** ** The financials service *)

Section ServiceFacts.
Context {F : Type} `{PyFloat F}.
Variable upper : string -> string.
Variable html_parser : string -> outcome node.
Local Open Scope string_scope.
Local Open Scope list_scope.

Lemma length_dict_set {V : Type} (d : dict V) (k : string) (v : V) :
  (length (dict_set d k v) <= S (length d))%nat.
Proof.
  induction d as [| [k0 v0] d IH]; simpl; [lia |].
  destruct (String.eqb k0 k); simpl; lia.
Qed.

(** The extractions of a page never raise. *)
Lemma extract_financials_total (soup : node) :
  exists data : financials F,
    extract_financials soup = Ok data
    /\ parse_table soup "profit-loss" = Ok (profit_loss data)
    /\ parse_table soup "balance-sheet" = Ok (balance_sheet data)
    /\ parse_table soup "cash-flow" = Ok (cash_flow data).
Proof.
  destruct (parse_table_total soup "profit-loss") as [pl Hpl].
  destruct (parse_table_total soup "balance-sheet") as [bs Hbs].
  destruct (parse_table_total soup "cash-flow") as [cf Hcf].
  exists {| profit_loss := pl; balance_sheet := bs; cash_flow := cf |}.
  unfold extract_financials. rewrite Hpl, Hbs, Hcf. cbn. auto.
Qed.

(** What one call does to the cache: nothing, or one assignment under the
    upper-cased ticker. *)
Lemma get_financials_cache_step (http_get : string -> outcome http_response)
  (ticker : string) (now : F) (cache : dict (cache_entry F)) :
  snd (get_financials upper http_get html_parser ticker now cache) = cache
  \/ exists e,
       snd (get_financials upper http_get html_parser ticker now cache)
       = dict_set cache (upper ticker) e.
Proof.
  unfold get_financials.
  destruct (cache_lookup _ _ _); [now left |].
  destruct (fetch_screener _ _); [| now left].
  destruct (html_parser _); [| now left].
  destruct (extract_financials _); [right; now eexists | now left].
Qed.

(** A ticker whose entry is younger than [CACHE_TTL] is answered from the
    cache: the answer is the cached data marked ["cache"], the cache is
    left as it is, and neither the network nor the parser has a part in
    it. *)
Theorem get_financials_cache_hit
  (http_get http_get' : string -> outcome http_response)
  (html_parser' : string -> outcome node)
  (ticker : string) (now : F) (cache : dict (cache_entry F))
  (cached : cache_entry F) :
  dict_get cache (upper ticker) = Some cached ->
  f_gt (f_of_Q CACHE_TTL) (f_sub now (c_timestamp cached)) = true ->
  get_financials upper http_get html_parser ticker now cache
  = (Done {| r_source := "cache"; r_data := c_data cached |}, cache)
  /\ get_financials upper http_get' html_parser' ticker now cache
     = get_financials upper http_get html_parser ticker now cache.
Proof.
  intros Hget Hfresh.
  unfold get_financials, cache_lookup. rewrite Hget, Hfresh. auto.
Qed.

(** After a call answered live at time [t0], a call at a time [t1] with
    [t1 - t0 < CACHE_TTL] for a ticker with the same upper-casing is
    answered from the cache with the same data, whatever the site serves
    by then. *)
Theorem get_financials_live_then_cached
  (http_get http_get' : string -> outcome http_response)
  (html_parser' : string -> outcome node)
  (ticker ticker' : string) (t0 t1 : F) (cache cache' : dict (cache_entry F))
  (r : financials_response F) :
  get_financials upper http_get html_parser ticker t0 cache = (Done r, cache') ->
  r_source r = "live" ->
  upper ticker' = upper ticker ->
  f_gt (f_of_Q CACHE_TTL) (f_sub t1 t0) = true ->
  get_financials upper http_get' html_parser' ticker' t1 cache'
  = (Done {| r_source := "cache"; r_data := r_data r |}, cache').
Proof.
  unfold get_financials at 1.
  destruct (cache_lookup cache (upper ticker) t0) as [c |].
  - intros [= <- <-] Hsrc. discriminate.
  - destruct (fetch_screener http_get (upper ticker)) as [html | f];
      [| discriminate].
    destruct (html_parser html) as [soup | f]; [| discriminate].
    destruct (extract_financials soup) as [data | e]; [| discriminate].
    intros [= <- <-] _ Hup Hfresh.
    unfold get_financials, cache_lookup.
    rewrite Hup, dict_get_set_eq. cbn [c_timestamp c_data r_data].
    now rewrite Hfresh.
Qed.

(** A call fails exactly when it is not answered from the cache and
    either the fetch fails ([requests.get] raises, or the status is 400 to
    599) or the parser rejects the page fetched; the extraction itself
    never fails.  The failure is then the fetch's or the parser's, nothing
    is cached and the cache keeps what it had, an entry that has expired
    included. *)
Theorem get_financials_fails_iff
  (http_get : string -> outcome http_response)
  (ticker : string) (now : F) (cache : dict (cache_entry F)) :
  let url := ("https://www.screener.in/company/" ++ upper ticker ++ "/")%string in
  forall f,
    (fst (get_financials upper http_get html_parser ticker now cache) = Failed f
     <->
     cache_lookup cache (upper ticker) now = None
     /\ (http_get url = Failed f
         \/ exists resp,
              http_get url = Done resp
              /\ (((400 <=? status_code resp) && (status_code resp <? 600))%nat = true
                  /\ f = HTTPError (status_code resp)
                  \/ ((400 <=? status_code resp) && (status_code resp <? 600))%nat = false
                     /\ html_parser (body resp) = Failed f)))
    /\ (fst (get_financials upper http_get html_parser ticker now cache) = Failed f ->
        snd (get_financials upper http_get html_parser ticker now cache) = cache).
Proof.
  intros url f. split.
  2:{ unfold get_financials.
      destruct (cache_lookup _ _ _); [discriminate |].
      destruct (fetch_screener _ _); [| reflexivity].
      destruct (html_parser _); [| reflexivity].
      destruct (extract_financials _); [discriminate | reflexivity]. }
  unfold get_financials, fetch_screener, raise_for_status.
  fold url.
  destruct (cache_lookup cache (upper ticker) now) as [c |].
  - cbn [fst]. split; [discriminate | intros [Hc _]; discriminate].
  - destruct (http_get url) as [resp | f0].
    + destruct ((400 <=? status_code resp) && (status_code resp <? 600))%nat eqn:E.
      * cbn [fst]. split.
        -- intros [= <-]. split; [reflexivity |]. right. exists resp. auto.
        -- intros [_ [Hf | (resp' & [= <-] & [[_ ->] | [E' _]])]];
             [discriminate | reflexivity | congruence].
      * destruct (html_parser (body resp)) as [soup | f1] eqn:Hp.
        -- destruct (extract_financials_total soup) as (data & -> & _).
           cbn [fst]. split; [discriminate |].
           intros [_ [Hf | (resp' & [= <-] & [[E' _] | [_ Hf]])]];
             [discriminate | congruence | congruence].
        -- cbn [fst]. split.
           ++ intros [= <-]. split; [reflexivity |]. right. exists resp. auto.
           ++ intros [_ [Hf | (resp' & [= <-] & [[E' _] | [_ Hf]])]];
                [discriminate | congruence | congruence].
    + cbn [fst]. split.
      * intros [= <-]. auto.
      * intros [_ [[= ->] | (resp & Hd & _)]]; [reflexivity | discriminate].
Qed.

(** A page served with a status outside 400 to 599 that the parser accepts
    is always extracted and cached, tables or no tables: the answer is
    marked ["live"], it holds the three extractions of the parsed body, and
    the cache holds it under the upper-cased ticker with the time of the
    call. *)
Theorem get_financials_live
  (http_get : string -> outcome http_response)
  (ticker : string) (now : F) (cache : dict (cache_entry F))
  (resp : http_response) (soup : node) :
  cache_lookup cache (upper ticker) now = None ->
  http_get ("https://www.screener.in/company/" ++ upper ticker ++ "/")%string
  = Done resp ->
  ((400 <=? status_code resp) && (status_code resp <? 600))%nat = false ->
  html_parser (body resp) = Done soup ->
  exists data,
    parse_table soup "profit-loss" = Ok (profit_loss data)
    /\ parse_table soup "balance-sheet" = Ok (balance_sheet data)
    /\ parse_table soup "cash-flow" = Ok (cash_flow data)
    /\ get_financials upper http_get html_parser ticker now cache
       = (Done {| r_source := "live"; r_data := data |},
          dict_set cache (upper ticker) {| c_timestamp := now; c_data := data |}).
Proof.
  intros Hmiss Hget Hstatus Hsoup.
  destruct (extract_financials_total soup) as (data & Hdata & Hpl & Hbs & Hcf).
  exists data. repeat split; try assumption.
  unfold get_financials, fetch_screener, raise_for_status.
  rewrite Hmiss, Hget, Hstatus, Hsoup, Hdata. reflexivity.
Qed.

(** No call evicts: the entries of the other tickers are untouched, every
    cached ticker stays cached, the tickers stay pairwise distinct, and the
    cache grows by one entry at most. *)
Theorem get_financials_never_evicts
  (http_get : string -> outcome http_response)
  (ticker : string) (now : F) (cache : dict (cache_entry F)) :
  let cache' := snd (get_financials upper http_get html_parser ticker now cache) in
  (forall k, k <> upper ticker -> dict_get cache' k = dict_get cache k)
  /\ incl (keys cache) (keys cache')
  /\ (NoDup (keys cache) -> NoDup (keys cache'))
  /\ (length cache <= length cache' <= S (length cache))%nat.
Proof.
  intros cache'. unfold cache'.
  destruct (get_financials_cache_step http_get ticker now cache) as [-> | [e ->]].
  - repeat split; auto. apply incl_refl.
  - split; [| split; [| split; [| split]]].
    + intros k Hk. apply dict_get_set_neq. congruence.
    + intros k Hk. apply In_keys_dict_set. auto.
    + apply NoDup_keys_dict_set.
    + destruct (in_dec string_dec (upper ticker) (keys cache)) as [Hin | Hn].
      * rewrite <- (length_map fst (dict_set _ _ _)), <- (length_map fst cache).
        fold (keys (dict_set cache (upper ticker) e)) (keys cache).
        rewrite keys_dict_set_in by assumption. lia.
      * rewrite dict_set_notin by assumption. rewrite length_app. simpl. lia.
    + apply length_dict_set.
Qed.

End ServiceFacts.

(** ** The further properties at the worked inputs *)

Section WitnessesMore.
Local Open Scope string_scope.
Local Open Scope list_scope.

(** A series with ["TTM"] first: the value returned is one of the
    series. *)
Lemma latest_value_from_series_witness :
  exists v : Q,
    latest_value [("TTM", 5); ("Mar 2024", 9)]%Q = Ok v
    /\ In v (values [("TTM", 5); ("Mar 2024", 9)]%Q).
Proof.
  destruct (latest_value_from_series (F := Q) [("TTM", 5); ("Mar 2024", 9)]%Q)
    as (v & Hv & Hin).
  exists v. split; [exact Hv | apply Hin; discriminate].
Defined.

(** The ["Investments"] row of the sample balance sheet has three value
    cells under two period labels. *)
Lemma parse_table_series_bounds_witness :
  NoDup (keys [("Mar 2023", 40); ("Mar 2024", 50)]%Q)
  /\ incl (keys [("Mar 2023", 40); ("Mar 2024", 50)]%Q)
          (period_labels (table_rows sample_soup "balance-sheet"))
  /\ (length [("Mar 2023", 40); ("Mar 2024", 50)]%Q
      <= length (period_labels (table_rows sample_soup "balance-sheet")))%nat
  /\ (length sample_bs <= length (table_rows sample_soup "balance-sheet") - 1)%nat.
Proof.
  apply (@parse_table_series_bounds Q _ sample_soup "balance-sheet" sample_bs
           "Investments"); reflexivity.
Defined.

(** [" Sales + "] and [" Mar 2023 "] of the sample page come out
    trimmed. *)
Lemma parse_table_labels_trimmed_witness :
  strip "Sales +" = "Sales +"
  /\ (forall p,
        In p (keys [("Mar 2023", 1000); ("Mar 2024", 1200); ("TTM", 2501 # 2)]%Q) ->
        strip p = p).
Proof.
  apply (@parse_table_labels_trimmed Q _ sample_soup "profit-loss" sample_pl
           "Sales +"); reflexivity.
Defined.

(** The cell of ["Fixed Assets +"] under ["Mar 2024"] in the sample balance
    sheet. *)
Lemma parse_table_cell_lookup_witness :
  exists s,
    dict_get sample_bs (strip (text (cell "td" "Fixed Assets +"))) = Some s
    /\ dict_get s "Mar 2024" = Some (cell_value (F := Q) (cell "td" "560")).
Proof.
  apply (@parse_table_cell_lookup Q _ sample_soup "balance-sheet" sample_bs
           (tr [cell "td" "Fixed Assets +"; cell "td" "500"; cell "td" "560"])
           (cell "td" "Fixed Assets +") (cell "td" "560")
           [cell "td" "500"; cell "td" "560"] 1 "Mar 2024").
  - reflexivity.
  - vm_compute. lia.
  - vm_compute. lia.
  - vm_compute. repeat constructor; simpl; intuition discriminate.
  - vm_compute. repeat constructor; simpl; intuition discriminate.
  - vm_compute. auto.
  - reflexivity.
  - reflexivity.
  - reflexivity.
Defined.

(** The sample tables, and tables with no sales. *)
Lemma revenue_and_net_debt_unrounded_witness :
  exists r,
    build_dcf_inputs sample_pl sample_bs [] = Ok r
    /\ revenue r = (2501 # 2)%Q
    /\ net_debt r = (300 - 50)%Q.
Proof.
  destruct (revenue_and_net_debt_unrounded sample_pl sample_bs [])
    as (r & rev & ebit & bor & cash & Hr & Hrev & _ & Hbor & Hcash & Erev & End & _).
  exists r. split; [exact Hr |].
  change (Ok (2501 # 2)%Q = Ok rev) in Hrev.
  change (Ok 300%Q = Ok bor) in Hbor.
  change (Ok 50%Q = Ok cash) in Hcash.
  injection Hrev as <-. injection Hbor as <-. injection Hcash as <-.
  split; [exact Erev | exact End].
Defined.

Lemma zero_revenue_ratios_witness :
  exists r,
    build_dcf_inputs sample_pl_no_sales sample_bs [] = Ok r
    /\ ebit_margin r = Qround 0 4
    /\ capex_pct r = Qround 0 4
    /\ nwc_pct r = Qround 0 4.
Proof.
  exact (@zero_revenue_ratios Q _ sample_pl_no_sales sample_bs [] 0%Q
           eq_refl eq_refl).
Defined.

(** Other assets rise by 30 and other liabilities by 10 on sales of
    1250.5. *)
Lemma nwc_pct_policy_witness :
  exists r,
    build_dcf_inputs sample_pl sample_bs_nwc [] = Ok r
    /\ nwc_pct r = Qround (((130 - 100) - (90 - 80)) / (2501 # 2)) 4.
Proof.
  destruct (nwc_pct_policy sample_pl sample_bs_nwc [])
    as (l & r & _ & Hr & Hrev & Hnwc & _ & Hround).
  exists r. split; [exact Hr |].
  assert (Erev : l_revenue l = (2501 # 2)%Q)
    by (change (Ok (2501 # 2)%Q = Ok (l_revenue l)) in Hrev; congruence).
  rewrite Hround.
  rewrite (Hnwc [] "Mar 2023" 100%Q "Mar 2024" 130%Q
                [] "Mar 2023" 80%Q "Mar 2024" 90%Q).
  - rewrite Erev. reflexivity.
  - reflexivity.
  - reflexivity.
  - repeat constructor; simpl; intuition discriminate.
  - repeat constructor; simpl; intuition discriminate.
  - rewrite Erev. reflexivity.
Defined.

(** Tables that hold none of the lines read, in exact arithmetic and in
    binary64. *)
Lemma missing_line_items_default_witness :
  build_dcf_inputs (F := Q) [("Other Income +", [("Mar 2024", 3%Q)])] [] []
  = Ok {| revenue := 0; ebit_margin := 0; tax_rate := 1 # 4; capex_pct := 0;
          nwc_pct := 0; net_debt := 0 - 0 |}%Q
  /\ build_dcf_inputs (F := float) [] [("Reserves", [("Mar 2024", 7%float)])] []
     = Ok {| revenue := 0; ebit_margin := 0; tax_rate := 0.25; capex_pct := 0;
             nwc_pct := 0; net_debt := 0 |}%float.
Proof.
  assert (Hnone : forall (V : Type) (d : dict V) (ks : list string) (k : string),
            forallb (fun k' => negb (dict_contains d k')) ks = true ->
            In k ks -> dict_get d k = None).
  { intros V d ks k Hall Hk. rewrite forallb_forall in Hall.
    specialize (Hall k Hk). unfold dict_contains in Hall.
    destruct (dict_get d k); [discriminate | reflexivity]. }
  set (pl_lines := ["Sales +"; "Operating Profit"; "Depreciation";
                    "Profit before tax"; "Net Profit +"]).
  set (bs_lines := ["Fixed Assets +"; "Other Assets +"; "Other Liabilities +";
                    "Borrowings +"; "Investments"]).
  split.
  - exact (@missing_line_items_default Q _
             [("Other Income +", [("Mar 2024", 3%Q)])] [] [] eq_refl eq_refl
             (fun k => Hnone _ [("Other Income +", [("Mar 2024", 3%Q)])]
                         pl_lines k eq_refl)
             (fun k => Hnone (dict Q) [] bs_lines k eq_refl)).
  - exact (@missing_line_items_default float _
             [] [("Reserves", [("Mar 2024", 7%float)])] [] eq_refl eq_refl
             (fun k => Hnone (dict float) [] pl_lines k eq_refl)
             (fun k => Hnone _ [("Reserves", [("Mar 2024", 7%float)])]
                         bs_lines k eq_refl)).
Defined.

(** No growth path, equal rates, no shares. *)
Lemma run_dcf_raises_witness :
  run_dcf (with_growth (single_period 0) []) = Raise IndexError
  /\ run_dcf (F := float)
       {| p_revenue := 1000; p_growth := [0]; p_ebit_margin := 0.2;
          p_tax_rate := 0.25; p_capex_pct := 0; p_nwc_pct := 0; p_wacc := 0.1;
          p_terminal_growth := 0.1; p_net_debt := 0; p_shares := 100 |}%float
     = Raise ZeroDivisionError.
Proof.
  split.
  - apply (proj1 (run_dcf_raises (with_growth (single_period 0) []))). reflexivity.
  - apply (proj1 (proj2 (run_dcf_raises (F := float) _))).
    + discriminate.
    + reflexivity.
Defined.

(** [infy] asked 1000 seconds after [INFY] was cached, with the site
    gone. *)
Lemma get_financials_cache_hit_witness :
  get_financials ascii_upper no_network sample_parser "infy" 2000%Q sample_cache
  = (Done {| r_source := "cache"; r_data := sample_financials |}, sample_cache).
Proof.
  destruct (@get_financials_cache_hit Q _ ascii_upper sample_parser
              no_network no_network sample_parser "infy" 2000%Q sample_cache
              {| c_timestamp := 1000%Q; c_data := sample_financials |})
    as [Hhit _]; [reflexivity | vm_compute; reflexivity | exact Hhit].
Defined.

(** [infy] fetched at time 0, then [INFY] asked at time 100 with the site
    gone. *)
Lemma get_financials_live_then_cached_witness :
  exists r cache',
    get_financials ascii_upper sample_http_get sample_parser "infy" 0%Q []
    = (Done r, cache')
    /\ get_financials ascii_upper no_network sample_parser "INFY" 100%Q cache'
       = (Done {| r_source := "cache"; r_data := r_data r |}, cache').
Proof.
  eexists. eexists. split; [vm_compute; reflexivity |].
  eapply (@get_financials_live_then_cached Q _ ascii_upper sample_parser
            sample_http_get no_network sample_parser "infy" "INFY" 0%Q 100%Q []);
    reflexivity.
Defined.

(** A ticker the site answers 404 for, a site that is gone, and a page
    the parser rejects. *)
Lemma get_financials_fails_iff_witness :
  fst (get_financials ascii_upper sample_http_get sample_parser "gone" 0%Q sample_cache)
  = Failed (HTTPError 404)
  /\ fst (get_financials ascii_upper no_network sample_parser "infy" 30000%Q sample_cache)
     = Failed RequestException
  /\ get_financials ascii_upper sample_http_get sample_parser "odd" 0%Q sample_cache
     = (Failed ParserError, sample_cache).
Proof.
  split; [| split].
  - apply (proj1 (@get_financials_fails_iff Q _ ascii_upper sample_parser
                    sample_http_get "gone" 0%Q sample_cache (HTTPError 404))).
    split; [reflexivity |]. right.
    exists {| status_code := 404; body := "Not found" |}.
    split; [reflexivity |]. left. split; reflexivity.
  - apply (proj1 (@get_financials_fails_iff Q _ ascii_upper sample_parser
                    no_network "infy" 30000%Q sample_cache RequestException)).
    split; [reflexivity |]. left. reflexivity.
  - assert (Hf : fst (get_financials ascii_upper sample_http_get sample_parser
                        "odd" 0%Q sample_cache) = Failed ParserError).
    { apply (proj1 (@get_financials_fails_iff Q _ ascii_upper sample_parser
                      sample_http_get "odd" 0%Q sample_cache ParserError)).
      split; [reflexivity |]. right.
      exists {| status_code := 200; body := "<![foo]>" |}.
      split; [reflexivity |]. right. split; reflexivity. }
    pose proof (proj2 (@get_financials_fails_iff Q _ ascii_upper sample_parser
                         sample_http_get "odd" 0%Q sample_cache ParserError) Hf)
      as Hc.
    destruct (get_financials ascii_upper sample_http_get sample_parser "odd" 0%Q
                sample_cache) as [o c].
    cbn [fst snd] in Hf, Hc. now rewrite Hf, Hc.
Defined.

(** [INFY] asked 29000 seconds after it was cached: the entry has expired
    and the page is fetched again. *)
Lemma get_financials_live_witness :
  exists data,
    parse_table sample_soup "profit-loss" = Ok (profit_loss data)
    /\ parse_table sample_soup "balance-sheet" = Ok (balance_sheet data)
    /\ parse_table sample_soup "cash-flow" = Ok (cash_flow data)
    /\ get_financials ascii_upper sample_http_get sample_parser "Infy" 30000%Q
         sample_cache
       = (Done {| r_source := "live"; r_data := data |},
          dict_set sample_cache "INFY" {| c_timestamp := 30000%Q; c_data := data |}).
Proof.
  apply (@get_financials_live Q _ ascii_upper sample_parser sample_http_get
           "Infy" 30000%Q sample_cache {| status_code := 200; body := "<html>" |}
           sample_soup);
    reflexivity.
Defined.

(** A second ticker is added beside the first. *)
Lemma get_financials_never_evicts_witness :
  dict_get
    (snd (get_financials ascii_upper sample_http_get sample_parser "infy" 0%Q
            [("TCS", {| c_timestamp := 0%Q; c_data := sample_financials |})]))
    "TCS"
  = Some {| c_timestamp := 0%Q; c_data := sample_financials |}.
Proof.
  rewrite (proj1 (@get_financials_never_evicts Q _ ascii_upper sample_parser
                    sample_http_get "infy" 0%Q
                    [("TCS", {| c_timestamp := 0%Q; c_data := sample_financials |})])
             "TCS"); [reflexivity | discriminate].
Defined.

End WitnessesMore.
